(** * arco-pricing: the prospecting cost simulator ([arco_prices.py])

    A shallow embedding of the pricing engine of [arco_prices.py]:
    [calculate_tiered_cost], [run_simulation] and the qualification x
    booking heat-map sweep, followed by the properties of the engine.

    Numbers.  The program computes with Python floats; the embedding
    computes with exact rationals ([Q]), so every statement below is
    about the arithmetic the program denotes, not about IEEE rounding.
    Results are compared with [==] ([Qeq]).

    Effects.  [calculate_tiered_cost] assigns to columns of the data
    frame it is handed; the embedding therefore returns, next to the
    value, the caller's frame as it is after the call, and
    [run_simulation] and the sweep thread the [pricing_tables] store
    through their calls.  The only exception the engine can raise on
    well-typed arguments is the [IndexError] of [.iloc[0]] on an empty
    frame; it is modelled with a small error monad. *)

From Stdlib Require Import QArith Qminmax ZArith List Lia Lqa.
From Stdlib Require Import Permutation Sorted.
From Stdlib Require String.
Import ListNotations.
Open Scope Q_scope.

(** ** Python built-ins *)

Module Py.

(** [x < y] on numbers, as a boolean. *)
Definition Qltb (x y : Q) : bool :=
  match x ?= y with Lt => true | _ => false end.

(** [min(a, b)]: the first argument unless the second is strictly smaller. *)
Definition min (a b : Q) : Q := if Qltb b a then b else a.

(** [max(a, b)]: the first argument unless the second is strictly greater. *)
Definition max (a b : Q) : Q := if Qltb a b then b else a.

(** [range(start, stop, step)] for a positive [step]. *)
Definition range (start stop step : Z) : list Z :=
  map (fun k => (start + Z.of_nat k * step)%Z)
      (seq 0 (Z.to_nat ((stop - start + step - 1) / step))).

(** Exceptions the engine can raise. *)
Inductive exn : Type := IndexError.

Definition result (A : Type) : Type := (exn + A)%type.
Definition ret {A} (a : A) : result A := inr a.
Definition raise {A} (e : exn) : result A := inl e.
Definition bind {A B} (m : result A) (k : A -> result B) : result B :=
  match m with
  | inl e => inl e
  | inr a => k a
  end.

(** [returns m P]: the call [m] raises nothing and its result
    satisfies [P]. *)
Definition returns {A} (m : result A) (P : A -> Prop) : Prop :=
  exists a, m = ret a /\ P a.

(** A [for] loop whose body may raise: the state is threaded from one
    iteration to the next and the first exception ends the loop. *)
Fixpoint for_each {S X} (body : S -> X -> result S) (xs : list X) (s : S)
  : result S :=
  match xs with
  | [] => ret s
  | x :: xs' => bind (body s x) (for_each body xs')
  end.

End Py.

Notation "x <- m ;; k" := (Py.bind m (fun x => k))
  (at level 61, m at next level, right associativity).
Notation "' p <- m ;; k" := (Py.bind m (fun p => k))
  (at level 61, p pattern, m at next level, right associativity).

(** ** The pandas fragment the engine uses *)

Module Pandas.

(** Column types. *)
Inductive dtype : Type := int64 | float64.

(** A row of a tiered price table: columns 'Mínimo', 'Máximo', 'Valor'. *)
Record Row : Type := mkRow { Minimo : Q; Maximo : Q; Valor : Q }.

(** A tiered price table: the dtype of each column and the rows, in
    index order. *)
Record DataFrame : Type := mkDataFrame {
  dtype_Minimo : dtype;
  dtype_Maximo : dtype;
  dtype_Valor : dtype;
  rows : list Row
}.

(** [df[c] = df[c].astype(float)] for the three columns in turn: an
    assignment into the frame itself.  The numbers are kept, the
    columns become float columns. *)
Definition astype_float_Minimo (df : DataFrame) : DataFrame :=
  mkDataFrame float64 (dtype_Maximo df) (dtype_Valor df) (rows df).
Definition astype_float_Maximo (df : DataFrame) : DataFrame :=
  mkDataFrame (dtype_Minimo df) float64 (dtype_Valor df) (rows df).
Definition astype_float_Valor (df : DataFrame) : DataFrame :=
  mkDataFrame (dtype_Minimo df) (dtype_Maximo df) float64 (rows df).

(** Insertion of a row in a list sorted by 'Mínimo', before the first
    row whose key is not smaller. *)
Fixpoint insert_row (r : Row) (l : list Row) : list Row :=
  match l with
  | [] => [r]
  | h :: t =>
      if Qle_bool (Minimo r) (Minimo h) then r :: h :: t
      else h :: insert_row r t
  end.

(** The sort itself.  Rows with equal keys keep their order here;
    pandas leaves that order open, and the engine only adds up over the
    sorted rows, so no result below depends on it. *)
Definition sort_rows (l : list Row) : list Row :=
  fold_right insert_row [] l.

(** [df.sort_values(by="Mínimo").reset_index(drop=True)]: a new frame,
    rows ascending by 'Mínimo'; the argument is not modified.  Rows
    are positional here, so resetting the index changes nothing. *)
Definition sort_values_Minimo (df : DataFrame) : DataFrame :=
  mkDataFrame (dtype_Minimo df) (dtype_Maximo df) (dtype_Valor df)
              (sort_rows (rows df)).

(** The order [sort_values] establishes. *)
Definition by_Minimo (a b : Row) : Prop := Minimo a <= Minimo b.

(** [df.iloc[0]["Valor"]] on the one-column frame of flat prices,
    given as its 'Valor' column. *)
Definition iloc0_Valor (valor_column : list Q) : Py.result Q :=
  match valor_column with
  | [] => Py.raise Py.IndexError
  | v :: _ => Py.ret v
  end.

End Pandas.

(** ** The engine *)

Module Engine.
Import Pandas.

(** One iteration of the loop over the sorted rows. *)
Definition tier_step (quantity total_cost : Q) (row : Row) : Q :=
  let min_val := Minimo row in
  let max_val := Maximo row in
  let price := Valor row in
  if Py.Qltb min_val quantity then
    let items_in_tier := Py.min quantity max_val - min_val in
    let cost_in_tier := items_in_tier * price in
    total_cost + cost_in_tier
  else total_cost.

(** [calculate_tiered_cost(quantity, tiers_df)].  The result pairs the
    returned cost with the caller's frame after the call: the three
    column assignments act on the caller's object, the sorted frame is
    a local one.  The body has no [raise] and calls nothing that
    raises on numeric columns. *)
Definition calculate_tiered_cost (quantity : Q) (tiers_df : DataFrame)
  : Py.result (Q * DataFrame) :=
  if Qeq_bool quantity 0 then Py.ret (0, tiers_df)
  else
    let tiers_df := astype_float_Minimo tiers_df in
    let tiers_df := astype_float_Maximo tiers_df in
    let tiers_df := astype_float_Valor tiers_df in
    let sorted_df := sort_values_Minimo tiers_df in
    let total_cost := fold_left (tier_step quantity) (rows sorted_df) 0 in
    Py.ret (total_cost, tiers_df).

(** The [rates] dictionary. *)
Record Rates : Type := mkRates {
  response : Q;
  qualification : Q;
  booking : Q
}.

(** The [pricing_tables] dictionary; [no_reply] is the 'Valor' column
    of the flat-price frame. *)
Record PricingTables : Type := mkPricingTables {
  no_reply : list Q;
  leads : DataFrame;
  qualified : DataFrame;
  booked : DataFrame
}.

(** The dictionary [run_simulation] returns. *)
Record SimulationResult : Type := mkSimulationResult {
  total_leads : Q;
  num_no_replies : Q;
  num_replies : Q;
  num_qualified : Q;
  num_booked : Q;
  cost_no_reply : Q;
  cost_replies : Q;
  cost_qualified : Q;
  cost_booked : Q;
  calculated_cost : Q;
  total_cost : Q;
  cpl : Q;
  cpa : Q
}.

(** [run_simulation(total_leads, rates, pricing_tables, minimum_billing)]:
    the returned dictionary and the [pricing_tables] store after the
    call, or the exception raised. *)
Definition run_simulation (total_leads : Q) (rates : Rates)
    (pricing_tables : PricingTables) (minimum_billing : Q)
  : Py.result (SimulationResult * PricingTables) :=
  let num_replies := total_leads * response rates in
  let num_no_replies := total_leads - num_replies in
  let num_qualified := num_replies * qualification rates in
  let num_booked := num_qualified * booking rates in
  flat_price <- iloc0_Valor (no_reply pricing_tables) ;;
  let cost_no_reply := num_no_replies * flat_price in
  '(cost_replies, leads_df) <-
    calculate_tiered_cost num_replies (leads pricing_tables) ;;
  '(cost_qualified, qualified_df) <-
    calculate_tiered_cost num_qualified (qualified pricing_tables) ;;
  '(cost_booked, booked_df) <-
    calculate_tiered_cost num_booked (booked pricing_tables) ;;
  let calculated_cost :=
    cost_no_reply + cost_replies + cost_qualified + cost_booked in
  let total_cost := Py.max calculated_cost minimum_billing in
  let cpl := if Py.Qltb 0 total_leads then total_cost / total_leads else 0 in
  let cpa := if Py.Qltb 0 num_booked then total_cost / num_booked else 0 in
  Py.ret
    (mkSimulationResult total_leads num_no_replies num_replies
       num_qualified num_booked cost_no_reply cost_replies cost_qualified
       cost_booked calculated_cost total_cost cpl cpa,
     mkPricingTables (no_reply pricing_tables) leads_df qualified_df
       booked_df).

End Engine.

(** ** The qualification x booking heat map *)

Module Sweep.
Import Pandas Engine.

(** [[i / 100.0 for i in range(0, 36, 5)]] and
    [[i / 100.0 for i in range(0, 51, 5)]]. *)
Definition qual_rates_heatmap : list Q :=
  map (fun i => inject_Z i / 100) (Py.range 0 36 5).
Definition booking_rates_heatmap : list Q :=
  map (fun i => inject_Z i / 100) (Py.range 0 51 5).

(** [temp_rates["qualification"] = v] and [temp_rates["booking"] = v]
    on the copy [temp_rates = rates.copy()]; the base dictionary is a
    different object and keeps its entries. *)
Definition set_qualification (r : Rates) (v : Q) : Rates :=
  mkRates (response r) v (booking r).
Definition set_booking (r : Rates) (v : Q) : Rates :=
  mkRates (response r) (qualification r) v.

Definition Matrix : Type := list (list Q).

(** Body of the inner loop: one simulation, one cell appended to each
    of the three rows. *)
Definition heatmap_cell (total_leads : Q) (rates : Rates)
    (minimum_billing qual_rate : Q)
    (st : list Q * list Q * list Q * PricingTables) (book_rate : Q)
  : Py.result (list Q * list Q * list Q * PricingTables) :=
  let '(cost_row, cpa_row, meetings_row, pricing_tables) := st in
  let temp_rates := rates in
  let temp_rates := set_qualification temp_rates qual_rate in
  let temp_rates := set_booking temp_rates book_rate in
  '(sim_result, pricing_tables) <-
    run_simulation total_leads temp_rates pricing_tables minimum_billing ;;
  Py.ret
    (cost_row ++ [total_cost sim_result],
     cpa_row ++ [if Py.Qltb 0 (cpa sim_result) then cpa sim_result else 0],
     meetings_row ++ [num_booked sim_result],
     pricing_tables).

(** Body of the outer loop: one row appended to each matrix. *)
Definition heatmap_row (total_leads : Q) (rates : Rates)
    (minimum_billing : Q)
    (st : Matrix * Matrix * Matrix * PricingTables) (qual_rate : Q)
  : Py.result (Matrix * Matrix * Matrix * PricingTables) :=
  let '(cost_matrix, cpa_matrix, meetings_matrix, pricing_tables) := st in
  '(cost_row, cpa_row, meetings_row, pricing_tables) <-
    Py.for_each (heatmap_cell total_leads rates minimum_billing qual_rate)
      booking_rates_heatmap ([], [], [], pricing_tables) ;;
  Py.ret
    (cost_matrix ++ [cost_row], cpa_matrix ++ [cpa_row],
     meetings_matrix ++ [meetings_row], pricing_tables).

(** The two nested loops that fill [cost_matrix], [cpa_matrix] and
    [meetings_matrix]. *)
Definition heatmap (total_leads : Q) (rates : Rates)
    (pricing_tables : PricingTables) (minimum_billing : Q)
  : Py.result (Matrix * Matrix * Matrix * PricingTables) :=
  Py.for_each (heatmap_row total_leads rates minimum_billing)
    qual_rates_heatmap ([], [], [], pricing_tables).

End Sweep.

(** ** Tables of the program *)

Module Defaults.
Import Pandas Engine.

(** [pd.DataFrame([{"Valor": 0.20}])]. *)
Definition df_no_reply : list Q := [20 # 100].

(** The default tables; 'Mínimo' and 'Máximo' are built from Python
    integers, 'Valor' from floats. *)
Definition df_leads : DataFrame :=
  mkDataFrame int64 int64 float64
    [ mkRow 0 500 5; mkRow 500 1500 (380 # 100); mkRow 1500 2000 3;
      mkRow 2000 3000 (240 # 100); mkRow 3000 99999 2 ].
Definition df_qualified : DataFrame :=
  mkDataFrame int64 int64 float64
    [ mkRow 0 50 20; mkRow 50 100 15; mkRow 100 150 10;
      mkRow 150 99999 5 ].
Definition df_booked : DataFrame :=
  mkDataFrame int64 int64 float64
    [ mkRow 0 20 100; mkRow 20 50 80; mkRow 50 100 60;
      mkRow 100 99999 50 ].

Definition pricing_tables : PricingTables :=
  mkPricingTables df_no_reply df_leads df_qualified df_booked.

(** The first two brackets of the leads table. *)
Definition scenario_A : DataFrame :=
  mkDataFrame int64 int64 float64
    [ mkRow 0 500 5; mkRow 500 1500 (380 # 100) ].

(** A single bracket that does not start at zero, two overlapping
    brackets, and a bracket whose bounds are the wrong way round: the
    table editor accepts all three. *)
Definition df_offset : DataFrame :=
  mkDataFrame int64 int64 float64 [ mkRow 100 500 5 ].
Definition df_overlap : DataFrame :=
  mkDataFrame int64 int64 float64 [ mkRow 0 500 5; mkRow 100 600 3 ].
Definition df_reversed : DataFrame :=
  mkDataFrame int64 int64 float64 [ mkRow 10 5 1 ].

(** The default slider positions: 15%, 25% and 33%. *)
Definition rates : Rates := mkRates (15 # 100) (25 # 100) (33 # 100).

End Defaults.

(** ** The bracket sum, as the specification words it *)

Module Spec.
Import Pandas.

Definition Qsum (l : list Q) : Q := fold_right Qplus 0 l.

(** What one tier charges for quantity [q]. *)
Definition tier_charge (q : Q) (t : Row) : Q :=
  (Qmin q (Maximo t) - Minimo t) * Valor t.

(** A tier with [min <= max] and a non-negative price. *)
Definition well_formed_tier (t : Row) : Prop :=
  Minimo t <= Maximo t /\ 0 <= Valor t.

(** A frame whose three columns are float columns already. *)
Definition float_frame (df : DataFrame) : Prop :=
  dtype_Minimo df = float64 /\ dtype_Maximo df = float64 /\
  dtype_Valor df = float64.

(** Sort ascending by min, keep the tiers whose min is strictly below
    [q], add up their charges. *)
Definition bracket_sum (q : Q) (tiers : list Row) : Q :=
  Qsum (map (tier_charge q)
            (filter (fun t => Py.Qltb (Minimo t) q) (sort_rows tiers))).

End Spec.

(** ** What a call returns and what it leaves behind *)

Module Derived.
Import Pandas Engine.

(** The value [calculate_tiered_cost] returns. *)
Definition cost_of (q : Q) (df : DataFrame) : Q :=
  if Qeq_bool q 0 then 0
  else fold_left (tier_step q) (sort_rows (rows df)) 0.

(** The caller's frame after the call. *)
Definition frame_after (q : Q) (df : DataFrame) : DataFrame :=
  if Qeq_bool q 0 then df
  else mkDataFrame float64 float64 float64 (rows df).

(** Two stores with the same flat price column and the same rows in
    every table; the dtypes of the columns may differ. *)
Definition same_tables (a b : PricingTables) : Prop :=
  no_reply a = no_reply b /\
  rows (leads a) = rows (leads b) /\
  rows (qualified a) = rows (qualified b) /\
  rows (booked a) = rows (booked b).

(** The dictionary [run_simulation] returns when the flat price is
    [p], and the store it leaves behind. *)
Definition simulate (tl : Q) (rates : Rates) (p : Q) (pt : PricingTables)
    (m : Q) : SimulationResult :=
  let num_replies := tl * response rates in
  let num_no_replies := tl - num_replies in
  let num_qualified := num_replies * qualification rates in
  let num_booked := num_qualified * booking rates in
  let cost_no_reply := num_no_replies * p in
  let cost_replies := cost_of num_replies (leads pt) in
  let cost_qualified := cost_of num_qualified (qualified pt) in
  let cost_booked := cost_of num_booked (booked pt) in
  let calculated_cost :=
    cost_no_reply + cost_replies + cost_qualified + cost_booked in
  let total_cost := Py.max calculated_cost m in
  mkSimulationResult tl num_no_replies num_replies num_qualified
    num_booked cost_no_reply cost_replies cost_qualified cost_booked
    calculated_cost total_cost
    (if Py.Qltb 0 tl then total_cost / tl else 0)
    (if Py.Qltb 0 num_booked then total_cost / num_booked else 0).

Definition tables_after (tl : Q) (rates : Rates) (pt : PricingTables)
  : PricingTables :=
  let num_replies := tl * response rates in
  let num_qualified := num_replies * qualification rates in
  let num_booked := num_qualified * booking rates in
  mkPricingTables (no_reply pt)
    (frame_after num_replies (leads pt))
    (frame_after num_qualified (qualified pt))
    (frame_after num_booked (booked pt)).

(** Cell [(i, j)] of a matrix stored as a list of rows. *)
Definition cell (M : list (list Q)) (i j : nat) : option Q :=
  match nth_error M i with
  | Some row => nth_error row j
  | None => None
  end.

(** The entry of [cpa_row] for a simulation whose cost per acquisition
    is [c]. *)
Definition cpa_entry (c : Q) : Q := if Py.Qltb 0 c then c else 0.

End Derived.

(** ** The dashboard: cost breakdown, volume curves, cost range *)

Module Dashboard.
Import Pandas Engine Sweep.
Import String.




(** [list(range(0, 3501, 100))]. *)
Definition lead_volumes : list Z := Py.range 0 3501 100.

(** The key of a rate variation.  The program renders it as
    [f"{prefix} ({percent:.1f}%)"]; it is kept here as the two values
    it is rendered from.  The five prefixes of a chart differ, so no
    assignment to the dictionary replaces an earlier entry and the
    dictionary is the list of its entries in insertion order. *)
Record Label : Type := mkLabel { prefix : string; percent : Q }.

(** The five conditional entries of a [..._rate_variations] dictionary:
    two below the target when they stay at or above 0, the target, two
    above when they stay at or below 1.  The three charts differ in the
    step and in the prefixes only. *)
Definition rate_variations (step : Q) (minus2 minus1 plus1 plus2 : string)
    (target : Q) : list (Label * Q) :=
  (if Qle_bool 0 (target - 2 * step)
   then [ (mkLabel minus2 ((target - 2 * step) * 100), target - 2 * step) ]
   else []) ++
  (if Qle_bool 0 (target - step)
   then [ (mkLabel minus1 ((target - step) * 100), target - step) ]
   else []) ++
  [ (mkLabel "Target" (target * 100), target) ] ++
  (if Qle_bool (target + step) 1
   then [ (mkLabel plus1 ((target + step) * 100), target + step) ]
   else []) ++
  (if Qle_bool (target + 2 * step) 1
   then [ (mkLabel plus2 ((target + 2 * step) * 100), target + 2 * step) ]
   else []).

Definition response_rate_variations : Q -> list (Label * Q) :=
  rate_variations (10 # 100) "-20pp" "-10pp" "+10pp" "+20pp".
Definition qualification_rate_variations : Q -> list (Label * Q) :=
  rate_variations (10 # 100) "-20pp" "-10pp" "+10pp" "+20pp".
Definition booking_rate_variations : Q -> list (Label * Q) :=
  rate_variations (15 # 100) "-30pp" "-15pp" "+15pp" "+30pp".

(** [scenario_rates["response"] = v] on a copy of [rates]. *)
Definition set_response (r : Rates) (v : Q) : Rates :=
  mkRates v (qualification r) (booking r).

(** A line of a volume chart: its name, its abscissas and its costs.
    Width, dash and colour are left to the chart. *)
Record Trace : Type := mkTrace {
  trace_name : Label;
  trace_x : list Z;
  trace_y : list Q
}.

(** Body of the loop over [lead_volumes]: one simulation, one cost
    appended. *)
Definition volume_point (scenario_rates : Rates) (minimum_billing : Q)
    (st : list Q * PricingTables) (volume : Z)
  : Py.result (list Q * PricingTables) :=
  let '(costs, pricing_tables) := st in
  '(sim_result, pricing_tables) <-
    run_simulation (inject_Z volume) scenario_rates pricing_tables
      minimum_billing ;;
  Py.ret (costs ++ [ total_cost sim_result ], pricing_tables).

(** Body of the loop over the variations: the rate is set on a copy of
    [rates], the costs are collected over the volumes and a trace is
    added to the figure. *)
Definition volume_series (set_rate : Rates -> Q -> Rates) (rates : Rates)
    (minimum_billing : Q) (st : list Trace * PricingTables)
    (scenario : Label * Q)
  : Py.result (list Trace * PricingTables) :=
  let '(traces, pricing_tables) := st in
  let '(scenario_name, rate) := scenario in
  let scenario_rates := set_rate rates rate in
  '(costs, pricing_tables) <-
    Py.for_each (volume_point scenario_rates minimum_billing) lead_volumes
      ([], pricing_tables) ;;
  Py.ret (traces ++ [ mkTrace scenario_name lead_volumes costs ],
          pricing_tables).

(** The traces of one volume chart. *)
Definition volume_sweep (set_rate : Rates -> Q -> Rates)
    (variations : list (Label * Q)) (rates : Rates)
    (pricing_tables : PricingTables) (minimum_billing : Q)
  : Py.result (list Trace * PricingTables) :=
  Py.for_each (volume_series set_rate rates minimum_billing) variations
    ([], pricing_tables).

(** [[cost for row in cost_matrix for cost in row]]. *)
Definition flat (M : Matrix) : list Q := List.concat M.

(** [min(xs)] and [max(xs)] on a list of numbers; [None] stands for the
    [ValueError] on an empty list. *)
Definition min_list (xs : list Q) : option Q :=
  match xs with
  | [] => None
  | x :: xs' => Some (fold_left (fun best y => Py.min best y) xs' x)
  end.
Definition max_list (xs : list Q) : option Q :=
  match xs with
  | [] => None
  | x :: xs' => Some (fold_left (fun best y => Py.max best y) xs' x)
  end.

End Dashboard.

(** ** Per-tier charges *)

Module Charges.
Import Pandas.

(** What the loop adds for one row: the tier's charge when its minimum
    is below the quantity, nothing otherwise. *)
Definition charged (q : Q) (t : Row) : Q :=
  if Py.Qltb (Minimo t) q then (Py.min q (Maximo t) - Minimo t) * Valor t
  else 0.

(** The charge of a tier that is used up. *)
Definition full_charge (t : Row) : Q := (Maximo t - Minimo t) * Valor t.

(** A funnel rate inside [0, 1]. *)
Definition unit_rate (x : Q) : Prop := 0 <= x /\ x <= 1.

End Charges.

(** * Properties *)

(** ** Facts about the built-ins *)

Module PyFacts.

Lemma Qltb_lt (x y : Q) : Py.Qltb x y = true <-> x < y.
Proof.
  unfold Py.Qltb. rewrite Qlt_alt.
  destruct (x ?= y); split; intro H; congruence.
Qed.

Lemma Qltb_ge (x y : Q) : Py.Qltb x y = false <-> y <= x.
Proof.
  rewrite <- Bool.not_true_iff_false, Qltb_lt. split.
  - apply Qnot_lt_le.
  - apply Qle_not_lt.
Qed.

Lemma Qltb_cases (x y : Q) :
  (Py.Qltb x y = true /\ x < y) \/ (Py.Qltb x y = false /\ y <= x).
Proof.
  destruct (Py.Qltb x y) eqn:E.
  - left. split; [reflexivity | now apply Qltb_lt].
  - right. split; [reflexivity | now apply Qltb_ge].
Qed.

Lemma min_Qmin (a b : Q) : Py.min a b = Qmin a b.
Proof.
  unfold Py.min, Py.Qltb, Qmin, GenericMinMax.gmin.
  rewrite <- (Qcompare_antisym a b). destruct (a ?= b); reflexivity.
Qed.

Lemma max_Qmax (a b : Q) : Py.max a b = Qmax a b.
Proof.
  unfold Py.max, Py.Qltb, Qmax, GenericMinMax.gmax.
  destruct (a ?= b); reflexivity.
Qed.

Lemma min_le (a b : Q) : a <= b -> Py.min a b = a.
Proof.
  intro H. unfold Py.min. now apply Qltb_ge in H as ->.
Qed.

Lemma min_gt (a b : Q) : b < a -> Py.min a b = b.
Proof.
  intro H. unfold Py.min. now apply Qltb_lt in H as ->.
Qed.

Lemma max_ge_r (a b : Q) : b <= Py.max a b.
Proof.
  unfold Py.max. destruct (Qltb_cases a b) as [[-> H] | [-> H]]; lra.
Qed.

Lemma max_ge_l (a b : Q) : a <= Py.max a b.
Proof.
  unfold Py.max. destruct (Qltb_cases a b) as [[-> H] | [-> H]]; lra.
Qed.

Lemma Qeq_bool_cases (x y : Q) :
  (Qeq_bool x y = true /\ x == y) \/ (Qeq_bool x y = false /\ ~ x == y).
Proof.
  destruct (Qeq_bool x y) eqn:E.
  - left. split; [reflexivity | now apply Qeq_bool_iff].
  - right. split; [reflexivity |]. intro H. apply Qeq_bool_iff in H.
    congruence.
Qed.

End PyFacts.

(** Case analysis on the next comparison of the goal. *)
Ltac case_Qltb :=
  match goal with
  | |- context [Py.Qltb ?x ?y] =>
      let H := fresh "Hcmp" in
      destruct (PyFacts.Qltb_cases x y) as [[-> H] | [-> H]]
  end.

(** ** Facts about sorting by 'Mínimo' *)

Module SortFacts.
Import Pandas.

Lemma insert_row_perm (r : Row) (l : list Row) :
  Permutation (r :: l) (insert_row r l).
Proof.
  induction l as [| h t IH]; simpl.
  - apply Permutation_refl.
  - destruct (Qle_bool (Minimo r) (Minimo h)).
    + apply Permutation_refl.
    + eapply perm_trans; [apply perm_swap | now apply perm_skip].
Qed.

Lemma sort_rows_perm (l : list Row) : Permutation l (sort_rows l).
Proof.
  induction l as [| h t IH]; simpl.
  - constructor.
  - eapply perm_trans; [apply perm_skip, IH | apply insert_row_perm].
Qed.

Lemma insert_row_sorted (r : Row) (l : list Row) :
  StronglySorted by_Minimo l -> StronglySorted by_Minimo (insert_row r l).
Proof.
  induction 1 as [| h t Hs IH Hall]; simpl.
  - repeat constructor.
  - destruct (Qle_bool (Minimo r) (Minimo h)) eqn:E.
    + apply Qle_bool_iff in E. constructor.
      * now constructor.
      * constructor; [exact E |].
        eapply Forall_impl; [| exact Hall].
        unfold by_Minimo. intros a Ha. lra.
    + assert (Hlt : Minimo h <= Minimo r).
      { destruct (Qlt_le_dec (Minimo h) (Minimo r)) as [Hl | Hl];
          [lra |]. apply Qle_bool_iff in Hl. congruence. }
      constructor; [exact IH |].
      eapply Permutation_Forall; [apply insert_row_perm |].
      now constructor.
Qed.

Lemma sort_rows_sorted (l : list Row) :
  StronglySorted by_Minimo (sort_rows l).
Proof.
  induction l; simpl; [constructor | now apply insert_row_sorted].
Qed.

Lemma sort_rows_Forall (P : Row -> Prop) (l : list Row) :
  Forall P l -> Forall P (sort_rows l).
Proof. apply Permutation_Forall, sort_rows_perm. Qed.

End SortFacts.

(** ** Facts about [calculate_tiered_cost] *)

Module EngineFacts.
Import Pandas Engine PyFacts.

Lemma calculate_tiered_cost_zero (q : Q) (df : DataFrame) :
  q == 0 -> calculate_tiered_cost q df = Py.ret (0, df).
Proof.
  intro H. unfold calculate_tiered_cost.
  now apply Qeq_bool_iff in H as ->.
Qed.

Lemma calculate_tiered_cost_nonzero (q : Q) (df : DataFrame) :
  ~ q == 0 ->
  calculate_tiered_cost q df =
  Py.ret (fold_left (tier_step q) (sort_rows (rows df)) 0,
          mkDataFrame float64 float64 float64 (rows df)).
Proof.
  intro H. unfold calculate_tiered_cost.
  destruct (Qeq_bool_cases q 0) as [[_ E] | [-> _]]; [contradiction |].
  reflexivity.
Qed.

(** The loop adds the charge of every row it lets through. *)
Lemma fold_tier_step (q : Q) (l : list Row) (a : Q) :
  fold_left (tier_step q) l a ==
  a + Spec.Qsum (map (Spec.tier_charge q)
                     (filter (fun t => Py.Qltb (Minimo t) q) l)).
Proof.
  revert a. induction l as [| h t IH]; intro a; simpl.
  - ring.
  - rewrite IH. unfold tier_step.
    destruct (Py.Qltb (Minimo h) q); simpl.
    + rewrite min_Qmin. unfold Spec.tier_charge. ring.
    + reflexivity.
Qed.

(** A row whose minimum is not below the quantity is skipped. *)
Lemma fold_tier_step_skip (q : Q) (l : list Row) (a : Q) :
  Forall (fun t => q <= Minimo t) l -> fold_left (tier_step q) l a = a.
Proof.
  intro H. revert a. induction H as [| h t Hh _ IH]; intro a; simpl.
  - reflexivity.
  - rewrite IH. unfold tier_step. now apply Qltb_ge in Hh as ->.
Qed.

(** Rows with [min <= max] and a non-negative price never lower the
    running total. *)
Lemma tier_step_mono (q1 q2 a1 a2 : Q) (t : Row) :
  Spec.well_formed_tier t -> q1 <= q2 -> a1 <= a2 ->
  tier_step q1 a1 t <= tier_step q2 a2 t.
Proof.
  intros [Hmm Hp] Hq Ha. unfold tier_step, Py.min.
  repeat case_Qltb; try lra; nra.
Qed.

Lemma fold_tier_step_mono (q1 q2 : Q) (l : list Row) (a1 a2 : Q) :
  Forall Spec.well_formed_tier l -> q1 <= q2 -> a1 <= a2 ->
  fold_left (tier_step q1) l a1 <= fold_left (tier_step q2) l a2.
Proof.
  intros Hl Hq. revert a1 a2.
  induction Hl as [| h t Hh _ IH]; intros a1 a2 Ha; simpl.
  - exact Ha.
  - apply IH. now apply tier_step_mono.
Qed.

Lemma tier_step_nonneg (q a : Q) (t : Row) :
  Spec.well_formed_tier t -> 0 <= a -> 0 <= tier_step q a t.
Proof.
  intros [Hmm Hp] Ha. unfold tier_step, Py.min.
  repeat case_Qltb; try lra; nra.
Qed.

Lemma fold_tier_step_nonneg (q : Q) (l : list Row) (a : Q) :
  Forall Spec.well_formed_tier l -> 0 <= a -> 0 <= fold_left (tier_step q) l a.
Proof.
  intro Hl. revert a. induction Hl as [| h t Hh _ IH]; intros a Ha; simpl.
  - exact Ha.
  - apply IH. now apply tier_step_nonneg.
Qed.

End EngineFacts.

(** ** Tiered-cost evaluation *)

Module TieredCost.
Import Pandas Engine PyFacts EngineFacts.

(** C1.  For every quantity [q > 0] and every table, the evaluation
    returns the sum, over the tiers (sorted ascending by min) whose min
    is strictly below [q], of [(min(q, max) - min) * unit_price]; on
    the table [0,500) at 5.00, [500,1500) at 3.80 the quantity 600
    costs 2880. *)
Theorem C1_bracket_sum (q : Q) (df : DataFrame) (Hq : 0 < q) :
  Py.returns (calculate_tiered_cost q df)
    (fun '(cost, _) => cost == Spec.bracket_sum q (rows df)) /\
  Py.returns (calculate_tiered_cost 600 Defaults.scenario_A)
    (fun '(cost, _) => cost == 2880).
Proof.
  split.
  - eexists. split.
    + apply calculate_tiered_cost_nonzero. lra.
    + cbv beta iota. rewrite fold_tier_step. unfold Spec.bracket_sum. ring.
  - eexists. split; reflexivity.
Qed.

Lemma C1_bracket_sum_witness :
  0 < 700 /\
  Py.returns (calculate_tiered_cost 700 Defaults.df_leads)
    (fun '(cost, _) => cost == Spec.bracket_sum 700 (rows Defaults.df_leads)).
Proof.
  split; [reflexivity |].
  apply (C1_bracket_sum 700 Defaults.df_leads). reflexivity.
Defined.

(** C4, as the code has it.  The evaluation validates nothing: for
    every quantity and every table it returns a cost and raises no
    error.  A non-zero quantity, negative ones included, gets the
    bracket sum over the table as it is, tiers with [min >= max]
    included; a negative quantity on a table whose minima are all
    non-negative costs 0; the single tier [min = 10, max = 5] at price
    1 charges -5 for the quantity 11. *)
Theorem C4_no_validation (q : Q) (df : DataFrame) :
  Py.returns (calculate_tiered_cost q df)
    (fun '(cost, _) =>
       (~ q == 0 -> cost == Spec.bracket_sum q (rows df)) /\
       (q < 0 -> Forall (fun t => 0 <= Minimo t) (rows df) -> cost == 0)) /\
  Py.returns (calculate_tiered_cost 11 Defaults.df_reversed)
    (fun '(cost, _) => cost == -5).
Proof.
  split.
  - destruct (Qeq_dec q 0) as [Hz | Hnz].
    + eexists. split; [now apply calculate_tiered_cost_zero |].
      cbv beta iota. split; [contradiction | reflexivity].
    + eexists. split; [now apply calculate_tiered_cost_nonzero |].
      cbv beta iota. split.
      * intros _. rewrite fold_tier_step. unfold Spec.bracket_sum. ring.
      * intros Hneg Hall. rewrite fold_tier_step_skip; [reflexivity |].
        apply SortFacts.sort_rows_Forall.
        eapply Forall_impl; [| exact Hall]. cbv beta. intros t Ht. lra.
  - eexists. split; reflexivity.
Qed.

Lemma C4_no_validation_witness :
  Py.returns (calculate_tiered_cost (-5) Defaults.scenario_A)
    (fun '(cost, _) => cost == 0).
Proof.
  destruct (C4_no_validation (-5) Defaults.scenario_A)
    as [[[cost df'] [Hrun [_ Hneg]]] _].
  exists (cost, df'). split; [exact Hrun |].
  apply Hneg; [reflexivity |].
  repeat constructor; discriminate.
Defined.

(** C4 as stated fails: a negative quantity and a tier with
    [min >= max] are both evaluated, nothing is raised. *)
Lemma C4_counterexample :
  (-5 < 0 /\
   ~ exists e, calculate_tiered_cost (-5) Defaults.scenario_A = Py.raise e) /\
  (Forall (fun t => Maximo t <= Minimo t) (rows Defaults.df_reversed) /\
   ~ exists e, calculate_tiered_cost 11 Defaults.df_reversed = Py.raise e).
Proof.
  split; split.
  - reflexivity.
  - intros [e He]. vm_compute in He. discriminate He.
  - repeat constructor. discriminate.
  - intros [e He]. vm_compute in He. discriminate He.
Qed.

(** C6, as the code has it.  When the first tier after sorting starts
    at 0, the quantity [q] lies in [0, tier[0].max] and no later tier
    starts below [q], the evaluation returns [q * tier[0].unit_price]. *)
Theorem C6_first_tier (q : Q) (df : DataFrame) (t0 : Row) (rest : list Row)
    (Hsort : rows (sort_values_Minimo df) = t0 :: rest)
    (Hmin : Minimo t0 == 0)
    (Hq0 : 0 <= q) (Hq : q <= Maximo t0)
    (Hrest : Forall (fun t => q <= Minimo t) rest) :
  Py.returns (calculate_tiered_cost q df)
    (fun '(cost, _) => cost == q * Valor t0).
Proof.
  destruct (Qeq_dec q 0) as [Hz | Hnz].
  - eexists. split; [now apply calculate_tiered_cost_zero |].
    cbv beta iota. rewrite Hz. ring.
  - eexists. split; [now apply calculate_tiered_cost_nonzero |].
    cbv beta iota. simpl in Hsort. rewrite Hsort. simpl.
    rewrite fold_tier_step_skip by exact Hrest.
    unfold tier_step. case_Qltb; [| lra].
    rewrite min_le by exact Hq. rewrite Hmin. ring.
Qed.

Lemma C6_first_tier_witness :
  Py.returns (calculate_tiered_cost 300 Defaults.df_leads)
    (fun '(cost, _) => cost == 300 * 5).
Proof.
  apply (C6_first_tier 300 Defaults.df_leads (mkRow 0 500 5)
           [ mkRow 500 1500 (380 # 100); mkRow 1500 2000 3;
             mkRow 2000 3000 (240 # 100); mkRow 3000 99999 2 ]).
  - reflexivity.
  - reflexivity.
  - discriminate.
  - discriminate.
  - repeat constructor; discriminate.
Defined.

(** C6 as stated fails: with [q <= tier[0].max] the cost differs from
    [q * tier[0].unit_price] when the first tier does not start at 0,
    when another tier starts below [q], and when [q] is negative. *)
Lemma C6_counterexample :
  (rows (sort_values_Minimo Defaults.df_offset) = [ mkRow 100 500 5 ] /\
   200 <= 500 /\
   Py.returns (calculate_tiered_cost 200 Defaults.df_offset)
     (fun '(cost, _) => cost == 500 /\ ~ cost == 200 * 5)) /\
  (rows (sort_values_Minimo Defaults.df_overlap) =
     [ mkRow 0 500 5; mkRow 100 600 3 ] /\
   200 <= 500 /\
   Py.returns (calculate_tiered_cost 200 Defaults.df_overlap)
     (fun '(cost, _) => cost == 1300 /\ ~ cost == 200 * 5)) /\
  (rows (sort_values_Minimo Defaults.scenario_A) =
     [ mkRow 0 500 5; mkRow 500 1500 (380 # 100) ] /\
   -5 <= 500 /\
   Py.returns (calculate_tiered_cost (-5) Defaults.scenario_A)
     (fun '(cost, _) => cost == 0 /\ ~ cost == -5 * 5)).
Proof.
  repeat split; try reflexivity; try discriminate;
    (eexists; split; [reflexivity |]; split;
     [reflexivity | discriminate]).
Qed.

(** C7, as the code has it.  On a table whose tiers all have
    [min <= max] and a non-negative price, the evaluation is monotone
    on non-negative quantities. *)
Theorem C7_monotone (q1 q2 : Q) (df : DataFrame)
    (Hwf : Forall Spec.well_formed_tier (rows df))
    (Hq1 : 0 <= q1) (Hq : q1 < q2) :
  Py.returns (calculate_tiered_cost q1 df) (fun '(cost1, _) =>
    Py.returns (calculate_tiered_cost q2 df) (fun '(cost2, _) =>
      cost1 <= cost2)).
Proof.
  assert (Hs : Forall Spec.well_formed_tier (sort_rows (rows df)))
    by now apply SortFacts.sort_rows_Forall.
  assert (Hnz2 : ~ q2 == 0) by lra.
  destruct (Qeq_dec q1 0) as [Hz | Hnz].
  - eexists. split; [now apply calculate_tiered_cost_zero |].
    eexists. split; [now apply calculate_tiered_cost_nonzero |].
    cbv beta iota. apply fold_tier_step_nonneg; [exact Hs | lra].
  - eexists. split; [now apply calculate_tiered_cost_nonzero |].
    eexists. split; [now apply calculate_tiered_cost_nonzero |].
    cbv beta iota. apply fold_tier_step_mono; [exact Hs | lra | lra].
Qed.

Lemma C7_monotone_witness :
  Py.returns (calculate_tiered_cost 600 Defaults.df_leads) (fun '(cost1, _) =>
    Py.returns (calculate_tiered_cost 1600 Defaults.df_leads) (fun '(cost2, _) =>
      cost1 <= cost2)).
Proof.
  apply (C7_monotone 600 1600 Defaults.df_leads).
  - repeat constructor; discriminate.
  - discriminate.
  - reflexivity.
Defined.

(** C7 as stated fails: the prices of the table [min = 10, max = 5,
    price = 1] are non-negative and [0 <= 5 < 11], yet the cost drops
    from 0 to -5. *)
Lemma C7_counterexample :
  Forall (fun t => 0 <= Valor t) (rows Defaults.df_reversed) /\
  0 <= 5 /\ 5 < 11 /\
  Py.returns (calculate_tiered_cost 5 Defaults.df_reversed) (fun '(cost1, _) =>
    Py.returns (calculate_tiered_cost 11 Defaults.df_reversed) (fun '(cost2, _) =>
      cost1 == 0 /\ cost2 == -5 /\ ~ cost1 <= cost2)).
Proof.
  split; [repeat constructor; discriminate |].
  split; [discriminate |]. split; [reflexivity |].
  eexists. split; [reflexivity |].
  eexists. split; [reflexivity |].
  cbv beta iota. repeat split; try reflexivity.
  intro H. vm_compute in H. apply H. reflexivity.
Qed.

End TieredCost.

(** ** Facts about [run_simulation] *)

Module SimulationFacts.
Import Pandas Engine PyFacts EngineFacts Derived.

Lemma calculate_tiered_cost_eq (q : Q) (df : DataFrame) :
  calculate_tiered_cost q df = Py.ret (cost_of q df, frame_after q df).
Proof.
  unfold calculate_tiered_cost, cost_of, frame_after.
  destruct (Qeq_bool q 0); reflexivity.
Qed.

Lemma cost_of_rows (q : Q) (df df' : DataFrame) :
  rows df = rows df' -> cost_of q df = cost_of q df'.
Proof. intro H. unfold cost_of. now rewrite H. Qed.

Lemma cost_of_zero (q : Q) (df : DataFrame) : q == 0 -> cost_of q df = 0.
Proof.
  intro H. unfold cost_of. now apply Qeq_bool_iff in H as ->.
Qed.

Lemma rows_frame_after (q : Q) (df : DataFrame) :
  rows (frame_after q df) = rows df.
Proof. unfold frame_after. now destruct (Qeq_bool q 0). Qed.

Lemma frame_after_float (q : Q) (df : DataFrame) :
  Spec.float_frame df -> frame_after q df = df.
Proof.
  intros (H1 & H2 & H3). unfold frame_after.
  destruct (Qeq_bool q 0); [reflexivity |].
  destruct df as [d1 d2 d3 r]; simpl in *. now subst.
Qed.

(** The whole of [run_simulation] on a store whose flat-price frame has
    a first row. *)
Lemma run_simulation_eq (tl : Q) (rates : Rates) (pt : PricingTables)
    (m p : Q) (rest : list Q) :
  no_reply pt = p :: rest ->
  run_simulation tl rates pt m =
  Py.ret (simulate tl rates p pt m, tables_after tl rates pt).
Proof.
  intro Hnr. unfold run_simulation, simulate, tables_after.
  rewrite Hnr. simpl. rewrite !calculate_tiered_cost_eq. reflexivity.
Qed.

Lemma no_reply_first (pt : PricingTables) :
  no_reply pt <> [] -> exists p rest, no_reply pt = p :: rest.
Proof.
  destruct (no_reply pt) as [| p rest]; [congruence |]. intros _.
  now exists p, rest.
Qed.

Lemma same_tables_refl (pt : PricingTables) : same_tables pt pt.
Proof. repeat split. Qed.

(** The result depends on the rows of the tables only, and a call
    leaves the rows as they are. *)
Lemma run_simulation_same_tables (tl : Q) (rates : Rates)
    (pt pt1 : PricingTables) (m : Q) :
  no_reply pt <> [] -> same_tables pt pt1 ->
  exists r pt' pt1',
    run_simulation tl rates pt m = Py.ret (r, pt') /\
    run_simulation tl rates pt1 m = Py.ret (r, pt1') /\
    same_tables pt pt1'.
Proof.
  intros Hnr (H0 & H1 & H2 & H3).
  destruct (no_reply_first pt Hnr) as (p & rest & Hp).
  assert (Hp1 : no_reply pt1 = p :: rest) by congruence.
  do 3 eexists. split; [| split].
  - apply (run_simulation_eq tl rates pt m p rest Hp).
  - rewrite (run_simulation_eq tl rates pt1 m p rest Hp1).
    unfold simulate.
    rewrite <- (cost_of_rows _ _ _ H1), <- (cost_of_rows _ _ _ H2),
      <- (cost_of_rows _ _ _ H3).
    reflexivity.
  - unfold same_tables. simpl. rewrite !rows_frame_after. now repeat split.
Qed.

End SimulationFacts.

(** ** The simulator *)

Module Simulation.
Import Pandas Engine PyFacts EngineFacts Derived SimulationFacts.

(** Unfolds a call of [run_simulation] on a store with a flat price. *)
Ltac run_simulation_returns Hnr :=
  let p := fresh "p" in
  let rest := fresh "rest" in
  let Hp := fresh "Hp" in
  destruct (no_reply_first _ Hnr) as (p & rest & Hp);
  eexists; split; [apply (run_simulation_eq _ _ _ _ p rest Hp) |];
  unfold simulate; cbv beta iota zeta; simpl.

(** C2.  For every configuration the simulator returns
    [total_cost = max(calculated_cost, minimum_billing)], the greater
    of the two numbers: the total is never below the calculated cost
    nor below the minimum billing, and it is one of the two.  So
    [total_cost >= minimum_billing]; when [calculated_cost = 1000] and
    [minimum_billing = 1500] the total is 1500 and the floor adjustment
    [total_cost - calculated_cost] is 500. *)
Theorem C2_minimum_billing (tl : Q) (rates : Rates) (pt : PricingTables)
    (m : Q) (Hnr : no_reply pt <> []) :
  Py.returns (run_simulation tl rates pt m) (fun '(r, _) =>
    total_cost r = Qmax (calculated_cost r) m /\
    calculated_cost r <= total_cost r /\
    m <= total_cost r /\
    (total_cost r = calculated_cost r \/ total_cost r = m) /\
    (calculated_cost r == 1000 -> m == 1500 ->
     total_cost r == 1500 /\ total_cost r - calculated_cost r == 500)).
Proof.
  run_simulation_returns Hnr.
  split; [apply max_Qmax |]. split; [apply max_ge_l |].
  split; [apply max_ge_r |]. split.
  - unfold Py.max. case_Qltb; [now right | now left].
  - intros Hc Hm. unfold Py.max. case_Qltb; lra.
Qed.

Lemma C2_minimum_billing_witness :
  Py.returns
    (run_simulation 5000 (mkRates 0 (25 # 100) (33 # 100))
       Defaults.pricing_tables 1500)
    (fun '(r, _) =>
       calculated_cost r == 1000 /\ total_cost r == 1500 /\
       total_cost r - calculated_cost r == 500).
Proof.
  destruct (C2_minimum_billing 5000 (mkRates 0 (25 # 100) (33 # 100))
              Defaults.pricing_tables 1500)
    as [[r pt'] [Hrun (_ & _ & _ & _ & Hfloor)]]; [discriminate |].
  exists (r, pt'). split; [exact Hrun |].
  assert (Hc : calculated_cost r == 1000).
  { pose proof Hrun as E. vm_compute in E.
    injection E as Er _. rewrite <- Er. reflexivity. }
  split; [exact Hc |]. apply Hfloor; [exact Hc | reflexivity].
Defined.

(** C3.  The funnel is the plain product chain, with no rounding:
    [replies = total_leads * response],
    [no_replies = total_leads - replies],
    [qualified = replies * qualification],
    [booked = qualified * booking]; 2500 leads at 15%, 25% and 33%
    give 375 replies, 93.75 qualified and 30.9375 booked. *)
Theorem C3_funnel (tl : Q) (rates : Rates) (pt : PricingTables) (m : Q)
    (Hnr : no_reply pt <> []) :
  Py.returns (run_simulation tl rates pt m) (fun '(r, _) =>
    num_replies r = tl * response rates /\
    num_no_replies r = tl - num_replies r /\
    num_qualified r = num_replies r * qualification rates /\
    num_booked r = num_qualified r * booking rates) /\
  Py.returns
    (run_simulation 2500 (mkRates (15 # 100) (25 # 100) (33 # 100))
       Defaults.pricing_tables 0)
    (fun '(r, _) =>
       num_replies r == 375 /\ num_qualified r == 9375 # 100 /\
       num_booked r == 309375 # 10000).
Proof.
  split.
  - run_simulation_returns Hnr. repeat split.
  - eexists. split; [reflexivity |]. repeat split.
Qed.

Lemma C3_funnel_witness :
  Py.returns (run_simulation 716 Defaults.rates Defaults.pricing_tables 0)
    (fun '(r, _) =>
       num_replies r = 716 * (15 # 100) /\
       num_no_replies r = 716 - num_replies r /\
       num_qualified r = num_replies r * (25 # 100) /\
       num_booked r = num_qualified r * (33 # 100)).
Proof.
  apply (C3_funnel 716 Defaults.rates Defaults.pricing_tables 0).
  discriminate.
Defined.

(** C8.  [cost_per_lead] is [total_cost / total_leads] when
    [total_leads > 0] and 0 when [total_leads = 0];
    [cost_per_acquisition] is [total_cost / booked] when [booked > 0]
    and 0 otherwise; the call returns in every case, a zero
    denominator raises nothing. *)
Theorem C8_guarded_division (tl : Q) (rates : Rates) (pt : PricingTables)
    (m : Q) (Hnr : no_reply pt <> []) :
  Py.returns (run_simulation tl rates pt m) (fun '(r, _) =>
    (0 < tl -> cpl r = total_cost r / tl) /\
    (tl == 0 -> cpl r = 0) /\
    (0 < num_booked r -> cpa r = total_cost r / num_booked r) /\
    (~ 0 < num_booked r -> cpa r = 0)).
Proof.
  run_simulation_returns Hnr. repeat split; intro H.
  - now apply Qltb_lt in H as ->.
  - case_Qltb; [lra | reflexivity].
  - now apply Qltb_lt in H as ->.
  - case_Qltb; [contradiction | reflexivity].
Qed.

Lemma C8_guarded_division_witness :
  Py.returns
    (run_simulation 0 Defaults.rates Defaults.pricing_tables 1500)
    (fun '(r, _) => cpl r = 0 /\ cpa r = 0 /\ total_cost r == 1500) /\
  Py.returns
    (run_simulation 2500 Defaults.rates Defaults.pricing_tables 0)
    (fun '(r, _) =>
       cpl r = total_cost r / 2500 /\
       cpa r = total_cost r / num_booked r).
Proof.
  split.
  - destruct (C8_guarded_division 0 Defaults.rates
                Defaults.pricing_tables 1500)
      as [[r pt'] [Hrun (_ & Hl0 & _ & Ha0)]]; [discriminate |].
    exists (r, pt'). split; [exact Hrun |].
    pose proof Hrun as E. vm_compute in E. injection E as Er _.
    split; [apply Hl0; reflexivity |].
    split; [apply Ha0; rewrite <- Er; discriminate |].
    rewrite <- Er. reflexivity.
  - destruct (C8_guarded_division 2500 Defaults.rates
                Defaults.pricing_tables 0)
      as [[r pt'] [Hrun (Hl & _ & Ha & _)]]; [discriminate |].
    exists (r, pt'). split; [exact Hrun |].
    pose proof Hrun as E. vm_compute in E. injection E as Er _.
    split; [apply Hl; reflexivity |].
    apply Ha. rewrite <- Er. reflexivity.
Defined.

(** C10.  With [total_leads = 0] and [minimum_billing = m >= 0], for
    every rates and tables: all funnel counts are 0, the four stage
    costs are 0, [calculated_cost] is 0, [total_cost] is [m], and
    [cost_per_lead] and [cost_per_acquisition] are 0. *)
Theorem C10_zero_volume (tl : Q) (rates : Rates) (pt : PricingTables)
    (m : Q) (Hnr : no_reply pt <> []) (Htl : tl == 0) (Hm : 0 <= m) :
  Py.returns (run_simulation tl rates pt m) (fun '(r, _) =>
    (num_replies r == 0 /\ num_no_replies r == 0 /\
     num_qualified r == 0 /\ num_booked r == 0) /\
    (cost_no_reply r == 0 /\ cost_replies r == 0 /\
     cost_qualified r == 0 /\ cost_booked r == 0) /\
    calculated_cost r == 0 /\ total_cost r == m /\
    cpl r == 0 /\ cpa r == 0).
Proof.
  run_simulation_returns Hnr.
  assert (H1 : tl * response rates == 0) by (rewrite Htl; ring).
  assert (H2 : tl * response rates * qualification rates == 0)
    by (rewrite Htl; ring).
  assert (H3 : tl * response rates * qualification rates * booking rates
               == 0) by (rewrite Htl; ring).
  rewrite (cost_of_zero _ _ H1), (cost_of_zero _ _ H2),
    (cost_of_zero _ _ H3).
  assert (Hc : (tl - tl * response rates) * p + 0 + 0 + 0 == 0)
    by (rewrite Htl; ring).
  assert (Ht : Py.max ((tl - tl * response rates) * p + 0 + 0 + 0) m == m).
  { unfold Py.max. case_Qltb; lra. }
  repeat split; try reflexivity; try assumption.
  - rewrite Htl. ring.
  - rewrite Htl. ring.
  - case_Qltb; [lra | reflexivity].
  - case_Qltb; [lra | reflexivity].
Qed.

Lemma C10_zero_volume_witness :
  Py.returns
    (run_simulation 0 Defaults.rates Defaults.pricing_tables 1500)
    (fun '(r, _) => calculated_cost r == 0 /\ total_cost r == 1500).
Proof.
  destruct (C10_zero_volume 0 Defaults.rates Defaults.pricing_tables 1500)
    as [[r pt'] [Hrun (_ & _ & Hc & Ht & _)]];
    [discriminate | reflexivity | discriminate |].
  exists (r, pt'). split; [exact Hrun | split; assumption].
Defined.

End Simulation.

(** ** What the engine does to the caller's configuration *)

Module FrameEffect.
Import Pandas Engine PyFacts EngineFacts Derived SimulationFacts.

(** C5, as the code has it.  The engine only reads the rates and the
    flat price, and it never changes the rows of a pricing table:
    their order, their number and their numbers stay.  Its one effect
    on the caller's tables is the cast of the three columns to float
    by an evaluation at a non-zero quantity; an evaluation at quantity
    0 leaves the table as it is, and so does any evaluation of a table
    whose columns are float columns already. *)
Theorem C5_frame_effect (q tl m : Q) (df : DataFrame) (rates : Rates)
    (pt : PricingTables) (Hnr : no_reply pt <> []) :
  Py.returns (calculate_tiered_cost q df) (fun '(_, df') =>
    rows df' = rows df /\
    (q == 0 -> df' = df) /\
    (Spec.float_frame df -> df' = df) /\
    (~ q == 0 -> Spec.float_frame df')) /\
  Py.returns (run_simulation tl rates pt m) (fun '(_, pt') =>
    no_reply pt' = no_reply pt /\
    rows (leads pt') = rows (leads pt) /\
    rows (qualified pt') = rows (qualified pt) /\
    rows (booked pt') = rows (booked pt) /\
    (Spec.float_frame (leads pt) -> Spec.float_frame (qualified pt) ->
     Spec.float_frame (booked pt) -> pt' = pt)).
Proof.
  split.
  - eexists. split; [apply calculate_tiered_cost_eq |]. cbv beta iota.
    split; [apply rows_frame_after |].
    split; [| split].
    + intro Hz. unfold frame_after. now apply Qeq_bool_iff in Hz as ->.
    + apply frame_after_float.
    + intro Hnz. unfold frame_after.
      destruct (Qeq_bool_cases q 0) as [[_ E] | [-> _]]; [contradiction |].
      now repeat split.
  - destruct (no_reply_first _ Hnr) as (p & rest & Hp).
    eexists. split; [apply (run_simulation_eq _ _ _ _ p rest Hp) |].
    cbv beta iota. unfold tables_after. simpl.
    rewrite !rows_frame_after. repeat split.
    intros Hl Hq Hb. rewrite !frame_after_float by assumption.
    now destruct pt.
Qed.

Lemma C5_frame_effect_witness :
  Py.returns
    (run_simulation 2500 Defaults.rates Defaults.pricing_tables 0)
    (fun '(_, pt') =>
       rows (leads pt') = rows Defaults.df_leads /\
       rows (qualified pt') = rows Defaults.df_qualified /\
       rows (booked pt') = rows Defaults.df_booked).
Proof.
  destruct (C5_frame_effect 0 2500 0 Defaults.df_leads Defaults.rates
              Defaults.pricing_tables)
    as [_ [[r pt'] [Hrun (_ & Hl & Hq & Hb & _)]]]; [discriminate |].
  exists (r, pt'). split; [exact Hrun |]. now repeat split.
Defined.

(** C5 as stated fails: after an evaluation of the default leads table
    at quantity 600 the caller's table is another one, its integer
    columns 'Mínimo' and 'Máximo' have become float columns; the same
    holds for the store handed to the simulator. *)
Lemma C5_counterexample :
  Py.returns (calculate_tiered_cost 600 Defaults.df_leads)
    (fun '(_, df') =>
       dtype_Minimo Defaults.df_leads = int64 /\
       dtype_Minimo df' = float64 /\ df' <> Defaults.df_leads) /\
  Py.returns
    (run_simulation 2500 Defaults.rates Defaults.pricing_tables 0)
    (fun '(_, pt') => pt' <> Defaults.pricing_tables).
Proof.
  split.
  - eexists. split; [reflexivity |]. cbv beta iota.
    repeat split. discriminate.
  - eexists. split; [reflexivity |]. cbv beta iota. discriminate.
Qed.

End FrameEffect.

(** ** The heat map *)

Module SweepFacts.
Import Pandas Engine PyFacts EngineFacts Derived SimulationFacts Sweep.

Section Cells.
Variables (tl m p : Q) (rest : list Q) (rates : Rates)
          (pt : PricingTables).
Hypothesis Hp : no_reply pt = p :: rest.

(** The simulation of cell [(q, b)] on the base store. *)
Let sim (q b : Q) : SimulationResult :=
  simulate tl (set_booking (set_qualification rates q) b) p pt m.

Lemma simulate_same_tables (r : Rates) (pt1 : PricingTables) :
  same_tables pt pt1 -> simulate tl r p pt1 m = simulate tl r p pt m.
Proof.
  intros (_ & H1 & H2 & H3). unfold simulate.
  now rewrite (cost_of_rows _ _ _ H1), (cost_of_rows _ _ _ H2),
    (cost_of_rows _ _ _ H3).
Qed.

Lemma same_tables_after (r : Rates) (pt1 : PricingTables) :
  same_tables pt pt1 -> same_tables pt (tables_after tl r pt1).
Proof.
  intros (H0 & H1 & H2 & H3). unfold same_tables, tables_after. simpl.
  rewrite !rows_frame_after. now repeat split.
Qed.

(** The inner loop appends one cell per booking rate, each computed
    from the rows of the base store. *)
Lemma heatmap_cells (q : Q) (bs : list Q) :
  forall (cost_row cpa_row meetings_row : list Q) (pt1 : PricingTables),
    same_tables pt pt1 ->
    exists pt2,
      same_tables pt pt2 /\
      Py.for_each (heatmap_cell tl rates m q) bs
        (cost_row, cpa_row, meetings_row, pt1) =
      Py.ret
        (cost_row ++ map (fun b => total_cost (sim q b)) bs,
         cpa_row ++ map (fun b => cpa_entry (cpa (sim q b))) bs,
         meetings_row ++ map (fun b => num_booked (sim q b)) bs,
         pt2).
Proof.
  induction bs as [| b bs IH]; intros cr pr mr pt1 Hsame.
  - exists pt1. split; [exact Hsame |]. simpl.
    now rewrite !app_nil_r.
  - assert (Hp1 : no_reply pt1 = p :: rest)
      by (destruct Hsame as (H0 & _); congruence).
    cbn [Py.for_each]. unfold heatmap_cell at 1.
    rewrite (run_simulation_eq _ _ _ _ p rest Hp1).
    cbn [Py.bind Py.ret].
    rewrite (simulate_same_tables _ _ Hsame).
    destruct (IH (cr ++ [total_cost (sim q b)])
                 (pr ++ [cpa_entry (cpa (sim q b))])
                 (mr ++ [num_booked (sim q b)])
                 (tables_after tl
                    (set_booking (set_qualification rates q) b) pt1))
      as (pt2 & Hsame2 & Hrun).
    { now apply same_tables_after. }
    exists pt2. split; [exact Hsame2 |].
    unfold sim, cpa_entry in *. rewrite Hrun.
    now rewrite <- !app_assoc.
Qed.

(** The outer loop appends one row per qualification rate. *)
Lemma heatmap_rows (qs : list Q) :
  forall (cost_matrix cpa_matrix meetings_matrix : Matrix)
         (pt1 : PricingTables),
    same_tables pt pt1 ->
    exists pt2,
      same_tables pt pt2 /\
      Py.for_each (heatmap_row tl rates m) qs
        (cost_matrix, cpa_matrix, meetings_matrix, pt1) =
      Py.ret
        (cost_matrix ++
           map (fun q => map (fun b => total_cost (sim q b))
                             booking_rates_heatmap) qs,
         cpa_matrix ++
           map (fun q => map (fun b => cpa_entry (cpa (sim q b)))
                             booking_rates_heatmap) qs,
         meetings_matrix ++
           map (fun q => map (fun b => num_booked (sim q b))
                             booking_rates_heatmap) qs,
         pt2).
Proof.
  induction qs as [| q qs IH]; intros cm pm mm pt1 Hsame.
  - exists pt1. split; [exact Hsame |]. simpl.
    now rewrite !app_nil_r.
  - destruct (heatmap_cells q booking_rates_heatmap [] [] [] pt1 Hsame)
      as (pt2 & Hsame2 & Hcells).
    cbn [Py.for_each]. unfold heatmap_row at 1.
    rewrite Hcells. cbn [Py.bind Py.ret app].
    destruct (IH (cm ++ [map (fun b => total_cost (sim q b))
                             booking_rates_heatmap])
                 (pm ++ [map (fun b => cpa_entry (cpa (sim q b)))
                             booking_rates_heatmap])
                 (mm ++ [map (fun b => num_booked (sim q b))
                             booking_rates_heatmap])
                 pt2 Hsame2)
      as (pt3 & Hsame3 & Hrun).
    exists pt3. split; [exact Hsame3 |].
    eapply eq_trans; [exact Hrun |].
    cbn [map]. now rewrite <- !app_assoc.
Qed.

End Cells.

Lemma cell_map (f : Q -> Q -> Q) (qs bs : list Q) (i j : nat) (q b : Q) :
  nth_error qs i = Some q -> nth_error bs j = Some b ->
  cell (map (fun q => map (fun b => f q b) bs) qs) i j = Some (f q b).
Proof.
  intros Hq Hb. unfold cell.
  rewrite nth_error_map, Hq. simpl. now rewrite nth_error_map, Hb.
Qed.

(** A non-negative floor keeps the cost per acquisition non-negative,
    so its matrix entry is the cost per acquisition itself. *)
Lemma cpa_entry_eq (total nb : Q) :
  0 <= total ->
  cpa_entry (if Py.Qltb 0 nb then total / nb else 0) ==
  (if Py.Qltb 0 nb then total / nb else 0).
Proof.
  intro Ht. unfold cpa_entry.
  destruct (Qltb_cases 0 nb) as [[-> Hnb] | [-> Hnb]].
  - assert (H : 0 <= total / nb).
    { apply Qle_shift_div_l; [exact Hnb | lra]. }
    case_Qltb; lra.
  - reflexivity.
Qed.

End SweepFacts.

Module HeatMap.
Import Pandas Engine PyFacts Derived SimulationFacts Sweep SweepFacts.

(** C9.  The qualification axis is 0.00, 0.05, ..., 0.35 and the
    booking axis 0.00, 0.05, ..., 0.50, both ascending.  At a fixed
    lead volume the sweep returns three matrices of 8 rows by 11
    columns; cell [(i, j)] of each comes from the simulation run with
    the base response rate and the [i]-th qualification and [j]-th
    booking rate: its total cost, its cost per acquisition (0 when
    nothing is booked) and its number of booked meetings. *)
Theorem C9_heatmap (tl : Q) (rates : Rates) (pt : PricingTables) (m : Q)
    (Hnr : no_reply pt <> []) :
  Forall2 Qeq qual_rates_heatmap
    [ 0; 5 # 100; 10 # 100; 15 # 100; 20 # 100; 25 # 100; 30 # 100;
      35 # 100 ] /\
  Forall2 Qeq booking_rates_heatmap
    [ 0; 5 # 100; 10 # 100; 15 # 100; 20 # 100; 25 # 100; 30 # 100;
      35 # 100; 40 # 100; 45 # 100; 50 # 100 ] /\
  Py.returns (heatmap tl rates pt m)
    (fun '(cost_matrix, cpa_matrix, meetings_matrix, _) =>
       (length cost_matrix = 8 /\ length cpa_matrix = 8 /\
        length meetings_matrix = 8)%nat /\
       (Forall (fun row => length row = 11%nat) cost_matrix /\
        Forall (fun row => length row = 11%nat) cpa_matrix /\
        Forall (fun row => length row = 11%nat) meetings_matrix) /\
       forall (i j : nat) (qual_rate book_rate : Q),
         nth_error qual_rates_heatmap i = Some qual_rate ->
         nth_error booking_rates_heatmap j = Some book_rate ->
         Py.returns
           (run_simulation tl
              (mkRates (response rates) qual_rate book_rate) pt m)
           (fun '(r, _) =>
              cell cost_matrix i j = Some (total_cost r) /\
              cell cpa_matrix i j = Some (cpa_entry (cpa r)) /\
              cell meetings_matrix i j = Some (num_booked r) /\
              (~ 0 < num_booked r -> cpa_entry (cpa r) = 0) /\
              (0 <= m -> cpa_entry (cpa r) == cpa r))).
Proof.
  split; [repeat constructor |]. split; [repeat constructor |].
  destruct (no_reply_first _ Hnr) as (p & rest & Hp).
  destruct (heatmap_rows tl m p rest rates pt Hp qual_rates_heatmap
              [] [] [] pt (same_tables_refl pt)) as (pt2 & _ & Hrun).
  eexists. split; [exact Hrun |]. cbn [app]. cbv beta iota.
  split; [| split].
  - rewrite !length_map. repeat split.
  - repeat split; apply Forall_forall; intros row Hin;
      apply in_map_iff in Hin as (q & <- & _);
      rewrite length_map; reflexivity.
  - intros i j qual_rate book_rate Hi Hj.
    eexists. split; [apply (run_simulation_eq _ _ _ _ p rest Hp) |].
    cbv beta iota.
    split; [| split; [| split; [| split]]].
    + apply (cell_map
               (fun q b => total_cost
                  (simulate tl (set_booking (set_qualification rates q) b)
                     p pt m)) _ _ _ _ _ _ Hi Hj).
    + apply (cell_map
               (fun q b => cpa_entry (cpa
                  (simulate tl (set_booking (set_qualification rates q) b)
                     p pt m))) _ _ _ _ _ _ Hi Hj).
    + apply (cell_map
               (fun q b => num_booked
                  (simulate tl (set_booking (set_qualification rates q) b)
                     p pt m)) _ _ _ _ _ _ Hi Hj).
    + intro Hnb. unfold simulate in *. simpl in *.
      case_Qltb; [contradiction | reflexivity].
    + intro Hm. unfold simulate. simpl.
      apply cpa_entry_eq.
      eapply Qle_trans; [exact Hm | apply max_ge_r].
Qed.

Lemma C9_heatmap_witness :
  Py.returns
    (heatmap 2500 Defaults.rates Defaults.pricing_tables 0)
    (fun '(cost_matrix, cpa_matrix, meetings_matrix, _) =>
       (length cost_matrix = 8 /\ length cpa_matrix = 8 /\
        length meetings_matrix = 8)%nat).
Proof.
  destruct (C9_heatmap 2500 Defaults.rates Defaults.pricing_tables 0)
    as (_ & _ & [[[[cm pm] mm] pt'] [Hrun (Hlen & _)]]); [discriminate |].
  exists (cm, pm, mm, pt'). split; [exact Hrun | exact Hlen].
Defined.

End HeatMap.

(** ** More on tiered-cost evaluation *)

Module ChargeFacts.
Import Pandas Engine PyFacts EngineFacts Derived SimulationFacts Charges.

Lemma Qsum_app (l1 l2 : list Q) :
  Spec.Qsum (l1 ++ l2) == Spec.Qsum l1 + Spec.Qsum l2.
Proof.
  induction l1 as [| x l1 IH]; simpl; [ring | rewrite IH; ring].
Qed.

Lemma Qsum_perm (l l' : list Q) :
  Permutation l l' -> Spec.Qsum l == Spec.Qsum l'.
Proof.
  induction 1 as [| x l l' _ IH | x y l | l l' l'' _ IH1 _ IH2]; simpl.
  - reflexivity.
  - now rewrite IH.
  - ring.
  - now rewrite IH1.
Qed.

Lemma Qsum_nonneg (l : list Q) :
  Forall (fun x => 0 <= x) l -> 0 <= Spec.Qsum l.
Proof.
  induction 1 as [| x l Hx _ IH]; simpl; [discriminate | lra].
Qed.

(** The loop adds up what each row is charged. *)
Lemma fold_tier_step_charged (q : Q) (l : list Row) (a : Q) :
  fold_left (tier_step q) l a == a + Spec.Qsum (map (charged q) l).
Proof.
  revert a. induction l as [| h t IH]; intro a; simpl.
  - ring.
  - rewrite IH. unfold tier_step, charged.
    destruct (Py.Qltb (Minimo h) q); ring.
Qed.

(** The cost is the sum of the charges of the rows as listed: the sort
    does not show in the result. *)
Lemma cost_of_charged (q : Q) (df : DataFrame) :
  ~ q == 0 -> cost_of q df == Spec.Qsum (map (charged q) (rows df)).
Proof.
  intro Hnz. unfold cost_of.
  destruct (Qeq_bool_cases q 0) as [[_ E] | [-> _]]; [contradiction |].
  rewrite fold_tier_step_charged, Qplus_0_l.
  apply Qsum_perm, Permutation_map, Permutation_sym,
    SortFacts.sort_rows_perm.
Qed.

Lemma charged_full (q : Q) (t : Row) :
  Minimo t <= Maximo t -> Maximo t <= q -> charged q t == full_charge t.
Proof.
  intros H1 H2. unfold charged, full_charge, Py.min.
  repeat case_Qltb.
  - reflexivity.
  - assert (E : Maximo t == q) by lra. rewrite E. reflexivity.
  - assert (E : Maximo t == Minimo t) by lra. rewrite E. ring.
Qed.

Lemma charged_skip (q : Q) (t : Row) : q <= Minimo t -> charged q t = 0.
Proof.
  intro H. unfold charged. now apply Qltb_ge in H as ->.
Qed.

Lemma charged_partial (q : Q) (t : Row) :
  Minimo t < q -> q <= Maximo t ->
  charged q t = (q - Minimo t) * Valor t.
Proof.
  intros H1 H2. unfold charged. apply Qltb_lt in H1 as ->.
  now rewrite min_le.
Qed.

Lemma charged_nonneg (q : Q) (t : Row) :
  Spec.well_formed_tier t -> 0 <= charged q t.
Proof.
  intros [H1 H2]. unfold charged, Py.min.
  repeat case_Qltb; try lra; nra.
Qed.


Lemma Qsum_map_full (q : Q) (l : list Row) :
  Forall (fun u => Minimo u <= Maximo u /\ Maximo u <= q) l ->
  Spec.Qsum (map (charged q) l) == Spec.Qsum (map full_charge l).
Proof.
  induction 1 as [| u l [H1 H2] _ IH]; simpl; [reflexivity |].
  now rewrite IH, charged_full.
Qed.

Lemma Qsum_map_skip (q : Q) (l : list Row) :
  Forall (fun u => q <= Minimo u) l ->
  Spec.Qsum (map (charged q) l) == 0.
Proof.
  induction 1 as [| u l H _ IH]; simpl; [reflexivity |].
  rewrite IH, charged_skip by exact H. ring.
Qed.


Lemma frame_after_twice (q q' : Q) (df : DataFrame) :
  ~ q == 0 -> frame_after q' (frame_after q df) = frame_after q df.
Proof.
  intro Hnz. apply frame_after_float. unfold frame_after.
  destruct (Qeq_bool_cases q 0) as [[_ E] | [-> _]]; [contradiction |].
  now repeat split.
Qed.

End ChargeFacts.

Module TieredCostMore.
Import Pandas Engine PyFacts EngineFacts Derived SimulationFacts Charges.
Import ChargeFacts.

(** Unfolds a call of [calculate_tiered_cost]. *)
Ltac evaluates :=
  eexists; split; [apply calculate_tiered_cost_eq |]; cbv beta iota.



(** X2.  On a table whose tiers all have [min <= max] and a
    non-negative price the cost is never negative, whatever the
    quantity. *)
Theorem X2_cost_nonneg (q : Q) (df : DataFrame)
    (Hwf : Forall Spec.well_formed_tier (rows df)) :
  Py.returns (calculate_tiered_cost q df) (fun '(cost, _) => 0 <= cost).
Proof.
  evaluates. unfold cost_of. destruct (Qeq_bool q 0); [discriminate |].
  apply fold_tier_step_nonneg; [| discriminate].
  now apply SortFacts.sort_rows_Forall.
Qed.

Lemma X2_cost_nonneg_witness :
  Py.returns (calculate_tiered_cost (-5) Defaults.df_leads)
    (fun '(cost, _) => 0 <= cost).
Proof.
  apply (X2_cost_nonneg (-5) Defaults.df_leads).
  repeat constructor; discriminate.
Defined.

(** X3.  Bracket billing.  When the rows split, in any order, into
    tiers that end at or below the quantity [q], one tier that contains
    [q] and tiers that start at or above [q], the cost is the full
    charge [(max - min) * price] of the first group plus
    [(q - min) * price] of the tier that contains [q]. *)
Theorem X3_bracket_billing (q : Q) (df : DataFrame) (lo hi : list Row)
    (t : Row)
    (Hnz : ~ q == 0)
    (Hperm : Permutation (rows df) (lo ++ t :: hi))
    (Hlo : Forall (fun u => Minimo u <= Maximo u /\ Maximo u <= q) lo)
    (Hmin : Minimo t < q) (Hmax : q <= Maximo t)
    (Hhi : Forall (fun u => q <= Minimo u) hi) :
  Py.returns (calculate_tiered_cost q df) (fun '(cost, _) =>
    cost == Spec.Qsum (map full_charge lo) + (q - Minimo t) * Valor t).
Proof.
  evaluates. rewrite cost_of_charged by exact Hnz.
  rewrite (Qsum_perm _ _ (Permutation_map (charged q) Hperm)).
  rewrite map_app, Qsum_app. simpl.
  rewrite Qsum_map_full by exact Hlo.
  rewrite Qsum_map_skip by exact Hhi.
  rewrite charged_partial by assumption. ring.
Qed.

Lemma X3_bracket_billing_witness :
  Py.returns (calculate_tiered_cost 1700 Defaults.df_leads)
    (fun '(cost, _) =>
       cost == (500 - 0) * 5 + ((1500 - 500) * (380 # 100) + 0) +
               (1700 - 1500) * 3).
Proof.
  apply (X3_bracket_billing 1700 Defaults.df_leads
           [ mkRow 0 500 5; mkRow 500 1500 (380 # 100) ]
           [ mkRow 2000 3000 (240 # 100); mkRow 3000 99999 2 ]
           (mkRow 1500 2000 3)).
  - discriminate.
  - apply Permutation_refl.
  - repeat constructor; discriminate.
  - reflexivity.
  - discriminate.
  - repeat constructor; discriminate.
Defined.

(** X4.  Saturation.  A non-zero quantity at or above the maximum of
    every tier costs the sum of the full charges: what exceeds the
    largest maximum is not charged at all. *)
Theorem X4_saturation (q : Q) (df : DataFrame)
    (Hnz : ~ q == 0)
    (Hall : Forall (fun u => Minimo u <= Maximo u /\ Maximo u <= q)
                   (rows df)) :
  Py.returns (calculate_tiered_cost q df) (fun '(cost, _) =>
    cost == Spec.Qsum (map full_charge (rows df))).
Proof.
  evaluates. rewrite cost_of_charged by exact Hnz.
  now apply Qsum_map_full.
Qed.

Lemma X4_saturation_witness :
  Py.returns (calculate_tiered_cost 2000 Defaults.scenario_A)
    (fun '(cost, _) => cost == 6300) /\
  Py.returns (calculate_tiered_cost 1500 Defaults.scenario_A)
    (fun '(cost, _) => cost == 6300).
Proof.
  split.
  - destruct (X4_saturation 2000 Defaults.scenario_A)
      as [[cost df'] [Hrun Hcost]].
    + discriminate.
    + repeat constructor; discriminate.
    + exists (cost, df'). split; [exact Hrun |].
      cbv beta iota in *. rewrite Hcost. reflexivity.
  - destruct (X4_saturation 1500 Defaults.scenario_A)
      as [[cost df'] [Hrun Hcost]].
    + discriminate.
    + repeat constructor; discriminate.
    + exists (cost, df'). split; [exact Hrun |].
      cbv beta iota in *. rewrite Hcost. reflexivity.
Defined.

(** X5.  An evaluation does not disturb the next one: on the frame an
    evaluation leaves behind, a second evaluation returns what it
    returns on the original frame, keeps the rows, and changes nothing
    any more once the first quantity was non-zero. *)
Theorem X5_evaluate_twice (q q' : Q) (df : DataFrame) :
  Py.returns (calculate_tiered_cost q df) (fun '(_, df1) =>
    Py.returns (calculate_tiered_cost q' df1) (fun '(cost2, df2) =>
      Py.returns (calculate_tiered_cost q' df) (fun '(cost2', _) =>
        cost2 = cost2') /\
      rows df2 = rows df /\
      (~ q == 0 -> df2 = df1))).
Proof.
  evaluates. evaluates. split; [| split].
  - evaluates. apply cost_of_rows, rows_frame_after.
  - now rewrite !rows_frame_after.
  - apply frame_after_twice.
Qed.

Lemma X5_evaluate_twice_witness :
  Py.returns (calculate_tiered_cost 600 Defaults.df_leads) (fun '(_, df1) =>
    Py.returns (calculate_tiered_cost 700 df1) (fun '(_, df2) =>
      df2 = df1)).
Proof.
  destruct (X5_evaluate_twice 600 700 Defaults.df_leads)
    as [[c1 df1] [Hrun1 [[c2 df2] [Hrun2 (_ & _ & Hsame)]]]].
  exists (c1, df1). split; [exact Hrun1 |].
  exists (c2, df2). split; [exact Hrun2 |].
  apply Hsame. discriminate.
Defined.





End TieredCostMore.

(** ** More on the simulator *)

Module SimulationMore.
Import Pandas Engine PyFacts EngineFacts Derived SimulationFacts Charges.
Import ChargeFacts.

Lemma cost_of_mono (q1 q2 : Q) (df : DataFrame) :
  Forall Spec.well_formed_tier (rows df) -> 0 <= q1 -> q1 <= q2 ->
  cost_of q1 df <= cost_of q2 df.
Proof.
  intros Hwf H1 H2.
  assert (Hs : Forall Spec.well_formed_tier (sort_rows (rows df)))
    by now apply SortFacts.sort_rows_Forall.
  unfold cost_of.
  destruct (Qeq_bool_cases q1 0) as [[-> E1] | [-> E1]];
    destruct (Qeq_bool_cases q2 0) as [[-> E2] | [-> E2]].
  - lra.
  - apply fold_tier_step_nonneg; [exact Hs | lra].
  - lra.
  - apply fold_tier_step_mono; [exact Hs | exact H2 | lra].
Qed.

Lemma cost_of_nonneg (q : Q) (df : DataFrame) :
  Forall Spec.well_formed_tier (rows df) -> 0 <= cost_of q df.
Proof.
  intro Hwf. unfold cost_of. destruct (Qeq_bool q 0); [discriminate |].
  apply fold_tier_step_nonneg; [| discriminate].
  now apply SortFacts.sort_rows_Forall.
Qed.

Lemma max_mono (a b m : Q) : a <= b -> Py.max a m <= Py.max b m.
Proof.
  intro H. unfold Py.max. repeat case_Qltb; lra.
Qed.

Lemma tables_after_twice (tl : Q) (rates : Rates) (pt : PricingTables) :
  tables_after tl rates (tables_after tl rates pt) = tables_after tl rates pt.
Proof.
  unfold tables_after. simpl. f_equal.
  - unfold frame_after. destruct (Qeq_bool (tl * response rates) 0);
      reflexivity.
  - unfold frame_after.
    destruct (Qeq_bool (tl * response rates * qualification rates) 0);
      reflexivity.
  - unfold frame_after.
    destruct (Qeq_bool
                (tl * response rates * qualification rates * booking rates)
                0); reflexivity.
Qed.

(** Unfolds a call of [run_simulation] whose flat price is [p]. *)
Ltac simulates Hp :=
  eexists; split; [apply (run_simulation_eq _ _ _ _ _ _ Hp) |];
  cbv beta iota.


(** X9.  The funnel narrows.  With a non-negative volume and the three
    rates inside [0, 1], replies and non-replies add up to the volume
    and [0 <= booked <= qualified <= replies <= total_leads], with
    non-replies between 0 and the volume as well. *)
Theorem X9_funnel_narrows (tl : Q) (rates : Rates) (pt : PricingTables)
    (m : Q) (Hnr : no_reply pt <> []) (Htl : 0 <= tl)
    (H1 : unit_rate (response rates))
    (H2 : unit_rate (qualification rates))
    (H3 : unit_rate (booking rates)) :
  Py.returns (run_simulation tl rates pt m) (fun '(r, _) =>
    num_replies r + num_no_replies r == tl /\
    0 <= num_booked r /\ num_booked r <= num_qualified r /\
    num_qualified r <= num_replies r /\ num_replies r <= tl /\
    0 <= num_no_replies r /\ num_no_replies r <= tl).
Proof.
  destruct (no_reply_first _ Hnr) as (p & rest & Hp). simulates Hp.
  unfold simulate. simpl.
  destruct H1 as [H1a H1b], H2 as [H2a H2b], H3 as [H3a H3b].
  set (a := response rates) in *. set (b := qualification rates) in *.
  set (c := booking rates) in *.
  assert (Ha : 0 <= tl * a) by nra.
  assert (Ha' : tl * a <= tl) by nra.
  assert (Hb : 0 <= tl * a * b) by nra.
  assert (Hb' : tl * a * b <= tl * a) by nra.
  assert (Hc : 0 <= tl * a * b * c) by nra.
  assert (Hc' : tl * a * b * c <= tl * a * b) by nra.
  repeat split; lra.
Qed.

Lemma X9_funnel_narrows_witness :
  Py.returns (run_simulation 2500 Defaults.rates Defaults.pricing_tables 0)
    (fun '(r, _) =>
       num_replies r + num_no_replies r == 2500 /\
       0 <= num_booked r /\ num_booked r <= num_qualified r /\
       num_qualified r <= num_replies r /\ num_replies r <= 2500 /\
       0 <= num_no_replies r /\ num_no_replies r <= 2500).
Proof.
  apply (X9_funnel_narrows 2500 Defaults.rates Defaults.pricing_tables 0).
  - discriminate.
  - discriminate.
  - split; discriminate.
  - split; discriminate.
  - split; discriminate.
Defined.

(** X10.  A qualification rate or a booking rate of 0 books nothing:
    no booked meetings, no cost for booked meetings and a cost per
    acquisition of 0, whatever the other rates, the volume and the
    tables. *)
Theorem X10_nothing_booked (tl : Q) (rates : Rates) (pt : PricingTables)
    (m : Q) (Hnr : no_reply pt <> [])
    (Hzero : qualification rates == 0 \/ booking rates == 0) :
  Py.returns (run_simulation tl rates pt m) (fun '(r, _) =>
    num_booked r == 0 /\ cost_booked r = 0 /\ cpa r = 0).
Proof.
  destruct (no_reply_first _ Hnr) as (p & rest & Hp). simulates Hp.
  unfold simulate. simpl.
  assert (Hb : tl * response rates * qualification rates * booking rates
               == 0).
  { destruct Hzero as [H | H]; rewrite H; ring. }
  split; [exact Hb |]. split; [now apply cost_of_zero |].
  case_Qltb; [lra | reflexivity].
Qed.

Lemma X10_nothing_booked_witness :
  Py.returns
    (run_simulation 2500 (mkRates (15 # 100) (25 # 100) 0)
       Defaults.pricing_tables 0)
    (fun '(r, _) => num_booked r == 0 /\ cost_booked r = 0 /\ cpa r = 0).
Proof.
  apply (X10_nothing_booked 2500 (mkRates (15 # 100) (25 # 100) 0)
           Defaults.pricing_tables 0).
  - discriminate.
  - right. reflexivity.
Defined.

(** X11.  The amount to pay is never below the calculated cost, which is
    the sum of the four stage costs; it is the calculated cost when the
    minimum billing does not exceed it and the minimum billing
    otherwise. *)
Theorem X11_floor (tl : Q) (rates : Rates) (pt : PricingTables) (m : Q)
    (Hnr : no_reply pt <> []) :
  Py.returns (run_simulation tl rates pt m) (fun '(r, _) =>
    calculated_cost r =
      cost_no_reply r + cost_replies r + cost_qualified r + cost_booked r /\
    calculated_cost r <= total_cost r /\
    (m <= calculated_cost r -> total_cost r = calculated_cost r) /\
    (calculated_cost r < m -> total_cost r = m)).
Proof.
  destruct (no_reply_first _ Hnr) as (p & rest & Hp). simulates Hp.
  unfold simulate. simpl.
  split; [reflexivity |]. split; [apply max_ge_l |].
  split; intro H; unfold Py.max; case_Qltb; try reflexivity; lra.
Qed.

Lemma X11_floor_witness :
  Py.returns
    (run_simulation 5000 (mkRates 0 (25 # 100) (33 # 100))
       Defaults.pricing_tables 1500)
    (fun '(r, _) => total_cost r = 1500) /\
  Py.returns
    (run_simulation 5000 (mkRates 0 (25 # 100) (33 # 100))
       Defaults.pricing_tables 800)
    (fun '(r, _) => total_cost r = calculated_cost r).
Proof.
  split.
  - destruct (X11_floor 5000 (mkRates 0 (25 # 100) (33 # 100))
                Defaults.pricing_tables 1500)
      as [[r pt'] [Hrun (_ & _ & _ & Hm)]]; [discriminate |].
    exists (r, pt'). split; [exact Hrun |]. apply Hm.
    pose proof Hrun as E. vm_compute in E. injection E as Er _.
    rewrite <- Er. reflexivity.
  - destruct (X11_floor 5000 (mkRates 0 (25 # 100) (33 # 100))
                Defaults.pricing_tables 800)
      as [[r pt'] [Hrun (_ & _ & Hc & _)]]; [discriminate |].
    exists (r, pt'). split; [exact Hrun |]. apply Hc.
    pose proof Hrun as E. vm_compute in E. injection E as Er _.
    rewrite <- Er. discriminate.
Defined.

(** X12.  More leads never cost less.  With a non-negative flat price,
    tables whose tiers all have [min <= max] and a non-negative price,
    a response rate inside [0, 1] and non-negative qualification and
    booking rates, the calculated cost and the amount to pay grow with
    the volume. *)
Theorem X12_more_leads (tl1 tl2 : Q) (rates : Rates) (pt : PricingTables)
    (m p : Q) (rest : list Q)
    (Hp : no_reply pt = p :: rest) (Hprice : 0 <= p)
    (Hl : Forall Spec.well_formed_tier (rows (leads pt)))
    (Hq : Forall Spec.well_formed_tier (rows (qualified pt)))
    (Hb : Forall Spec.well_formed_tier (rows (booked pt)))
    (H1 : unit_rate (response rates))
    (H2 : 0 <= qualification rates) (H3 : 0 <= booking rates)
    (Htl1 : 0 <= tl1) (Htl : tl1 <= tl2) :
  Py.returns (run_simulation tl1 rates pt m) (fun '(r1, _) =>
    Py.returns (run_simulation tl2 rates pt m) (fun '(r2, _) =>
      calculated_cost r1 <= calculated_cost r2 /\
      total_cost r1 <= total_cost r2)).
Proof.
  simulates Hp. simulates Hp. unfold simulate. simpl.
  destruct H1 as [H1a H1b].
  set (a := response rates) in *. set (b := qualification rates) in *.
  set (c := booking rates) in *.
  assert (Ha1 : 0 <= tl1 * a) by nra.
  assert (Ha : tl1 * a <= tl2 * a) by nra.
  assert (Hb1 : 0 <= tl1 * a * b) by nra.
  assert (Hab : tl1 * a * b <= tl2 * a * b) by nra.
  assert (Hc1 : 0 <= tl1 * a * b * c) by nra.
  assert (Habc : tl1 * a * b * c <= tl2 * a * b * c) by nra.
  assert (Hx : 0 <= (tl2 - tl1) * (1 - a)) by nra.
  assert (Hy : 0 <= (tl2 - tl1) * (1 - a) * p)
    by (apply Qmult_le_0_compat; assumption).
  assert (Hn : (tl1 - tl1 * a) * p <= (tl2 - tl2 * a) * p) by lra.
  pose proof (cost_of_mono _ _ _ Hl Ha1 Ha).
  pose proof (cost_of_mono _ _ _ Hq Hb1 Hab).
  pose proof (cost_of_mono _ _ _ Hb Hc1 Habc).
  assert (Hcalc :
    (tl1 - tl1 * a) * p + cost_of (tl1 * a) (leads pt) +
      cost_of (tl1 * a * b) (qualified pt) +
      cost_of (tl1 * a * b * c) (booked pt) <=
    (tl2 - tl2 * a) * p + cost_of (tl2 * a) (leads pt) +
      cost_of (tl2 * a * b) (qualified pt) +
      cost_of (tl2 * a * b * c) (booked pt)) by lra.
  split; [exact Hcalc | now apply max_mono].
Qed.

Lemma X12_more_leads_witness :
  Py.returns (run_simulation 1000 Defaults.rates Defaults.pricing_tables 0)
    (fun '(r1, _) =>
       Py.returns
         (run_simulation 2500 Defaults.rates Defaults.pricing_tables 0)
         (fun '(r2, _) =>
            calculated_cost r1 <= calculated_cost r2 /\
            total_cost r1 <= total_cost r2)).
Proof.
  apply (X12_more_leads 1000 2500 Defaults.rates Defaults.pricing_tables 0
           (20 # 100) []).
  - reflexivity.
  - discriminate.
  - repeat constructor; discriminate.
  - repeat constructor; discriminate.
  - repeat constructor; discriminate.
  - split; discriminate.
  - discriminate.
  - discriminate.
  - discriminate.
  - discriminate.
Defined.

(** X13.  Running the same simulation again on the store the first run
    left behind returns the same dictionary and leaves that store as it
    is: the cast of the columns happens once. *)
Theorem X13_run_twice (tl : Q) (rates : Rates) (pt : PricingTables) (m : Q)
    (Hnr : no_reply pt <> []) :
  Py.returns (run_simulation tl rates pt m) (fun '(r1, pt1) =>
    Py.returns (run_simulation tl rates pt1 m) (fun '(r2, pt2) =>
      r2 = r1 /\ pt2 = pt1)).
Proof.
  destruct (no_reply_first _ Hnr) as (p & rest & Hp). simulates Hp.
  assert (Hp1 : no_reply (tables_after tl rates pt) = p :: rest)
    by exact Hp.
  simulates Hp1. split.
  - unfold simulate, tables_after. simpl.
    now rewrite !(cost_of_rows _ _ _ (rows_frame_after _ _)).
  - apply tables_after_twice.
Qed.

Lemma X13_run_twice_witness :
  Py.returns (run_simulation 2500 Defaults.rates Defaults.pricing_tables 0)
    (fun '(r1, pt1) =>
       Py.returns (run_simulation 2500 Defaults.rates pt1 0)
         (fun '(r2, pt2) => r2 = r1 /\ pt2 = pt1)).
Proof.
  apply (X13_run_twice 2500 Defaults.rates Defaults.pricing_tables 0).
  discriminate.
Defined.

End SimulationMore.

(** ** The dashboard *)

Module DashboardFacts.
Import Pandas Engine PyFacts EngineFacts Derived SimulationFacts Charges.
Import ChargeFacts Sweep Dashboard.
Import String.

(** The booleans that decide which variations enter the dictionary. *)
Ltac case_Qle_bool :=
  match goal with
  | |- context [Qle_bool ?x ?y] =>
      let E := fresh "E" in
      destruct (Qle_bool x y) eqn:E;
      [ apply Qle_bool_iff in E | clear E ]
  end.



(** X16.  The rate variations of a volume chart.  For a target rate
    inside [0, 1] and a positive step, every variation lies inside
    [0, 1], the variations are listed in strictly ascending order, the
    target itself is always among them under the name Target, there are
    between one and five of them, and every name shows one hundred
    times its rate. *)
Theorem X16_rate_variations (step target : Q)
    (minus2 minus1 plus1 plus2 : String.string)
    (Hstep : 0 < step) (Htarget : unit_rate target) :
  let vs := rate_variations step minus2 minus1 plus1 plus2 target in
  Forall unit_rate (map snd vs) /\
  StronglySorted Qlt (map snd vs) /\
  In (mkLabel "Target"%string (target * 100), target) vs /\
  (1 <= List.length vs <= 5)%nat /\
  Forall (fun v => percent (fst v) = snd v * 100) vs.
Proof.
  destruct Htarget as [Ht0 Ht1]. unfold rate_variations.
  repeat case_Qle_bool; simpl;
    (split; [repeat constructor; lra |]);
    (split; [repeat constructor; lra |]);
    (split; [tauto |]);
    (split; [lia |]);
    repeat constructor.
Qed.

Lemma X16_rate_variations_witness :
  Forall unit_rate (map snd (booking_rate_variations (90 # 100))) /\
  StronglySorted Qlt (map snd (booking_rate_variations (90 # 100))) /\
  List.length (booking_rate_variations (90 # 100)) = 3%nat.
Proof.
  destruct (X16_rate_variations (15 # 100) (90 # 100)
              "-30pp"%string "-15pp"%string "+15pp"%string "+30pp"%string)
    as (Hr & Hs & _); [reflexivity | split; discriminate |].
  split; [exact Hr |]. split; [exact Hs | reflexivity].
Defined.

End DashboardFacts.

(** ** The volume charts *)

Module VolumeCharts.
Import String.
Import Pandas Engine PyFacts EngineFacts Derived SimulationFacts Charges.
Import ChargeFacts Sweep SweepFacts Dashboard.

Lemma Forall2_map_self {A B} (R : A -> B -> Prop) (f : A -> B)
    (l : list A) :
  (forall a, In a l -> R a (f a)) -> Forall2 R l (map f l).
Proof.
  induction l as [| a l IH]; intro H; simpl; constructor.
  - apply H. now left.
  - apply IH. intros b Hb. apply H. now right.
Qed.

(** The amount to pay at volume zero is the minimum billing. *)
Lemma simulate_zero_volume (rates : Rates) (p : Q) (pt : PricingTables)
    (m : Q) :
  0 <= m -> total_cost (simulate (inject_Z 0) rates p pt m) == m.
Proof.
  intro Hm. unfold simulate. cbn [total_cost].
  assert (E : forall x, inject_Z 0 * x == 0) by (intro x; ring).
  assert (E1 : inject_Z 0 * response rates == 0) by apply E.
  assert (E2 : inject_Z 0 * response rates * qualification rates == 0)
    by (rewrite E1; ring).
  assert (E3 : inject_Z 0 * response rates * qualification rates *
               booking rates == 0) by (rewrite E2; ring).
  rewrite (cost_of_zero _ (leads pt) E1),
    (cost_of_zero _ (qualified pt) E2), (cost_of_zero _ (booked pt) E3).
  unfold Py.max. case_Qltb; [reflexivity |].
  assert (E4 : (inject_Z 0 - inject_Z 0 * response rates) * p + 0 + 0 + 0
               == 0) by ring.
  lra.
Qed.

Section Volumes.
Variables (m p : Q) (rest : list Q) (pt : PricingTables).
Hypothesis Hp : no_reply pt = p :: rest.

(** The costs of one line, computed from the rows of the base store. *)
Let line (sr : Rates) (vols : list Z) : list Q :=
  map (fun v => total_cost (simulate (inject_Z v) sr p pt m)) vols.

Lemma volume_points (sr : Rates) (vols : list Z) :
  forall (costs : list Q) (pt1 : PricingTables),
    same_tables pt pt1 ->
    exists pt2,
      same_tables pt pt2 /\
      Py.for_each (volume_point sr m) vols (costs, pt1) =
      Py.ret (costs ++ line sr vols, pt2).
Proof.
  induction vols as [| v vols IH]; intros costs pt1 Hsame.
  - exists pt1. split; [exact Hsame |]. simpl. now rewrite app_nil_r.
  - assert (Hp1 : no_reply pt1 = p :: rest)
      by (destruct Hsame as (H0 & _); congruence).
    cbn [Py.for_each]. unfold volume_point at 1.
    rewrite (run_simulation_eq _ _ _ _ p rest Hp1).
    cbn [Py.bind Py.ret].
    rewrite (simulate_same_tables _ _ _ _ _ _ Hsame).
    destruct (IH (costs ++ [total_cost (simulate (inject_Z v) sr p pt m)])
                 (tables_after (inject_Z v) sr pt1))
      as (pt2 & Hsame2 & Hrun).
    { now apply same_tables_after. }
    exists pt2. split; [exact Hsame2 |].
    eapply eq_trans; [exact Hrun |].
    unfold line. cbn [map]. now rewrite <- app_assoc.
Qed.

Lemma volume_traces (set_rate : Rates -> Q -> Rates) (rates : Rates)
    (vs : list (Label * Q)) :
  forall (traces : list Trace) (pt1 : PricingTables),
    same_tables pt pt1 ->
    exists pt2,
      same_tables pt pt2 /\
      Py.for_each (volume_series set_rate rates m) vs (traces, pt1) =
      Py.ret
        (traces ++
           map (fun s => mkTrace (fst s) lead_volumes
                           (line (set_rate rates (snd s)) lead_volumes)) vs,
         pt2).
Proof.
  induction vs as [| [label rate] vs IH]; intros traces pt1 Hsame.
  - exists pt1. split; [exact Hsame |]. simpl. now rewrite app_nil_r.
  - destruct (volume_points (set_rate rates rate) lead_volumes [] pt1 Hsame)
      as (pt2 & Hsame2 & Hline).
    cbn [Py.for_each]. unfold volume_series at 1.
    rewrite Hline. cbn [Py.bind Py.ret app].
    destruct (IH (traces ++
                    [mkTrace label lead_volumes
                       (line (set_rate rates rate) lead_volumes)])
                 pt2 Hsame2)
      as (pt3 & Hsame3 & Hrun).
    exists pt3. split; [exact Hsame3 |].
    eapply eq_trans; [exact Hrun |].
    cbn [map fst snd]. now rewrite <- app_assoc.
Qed.

End Volumes.

(** X17.  A volume chart has one line per variation, in the order of the
    variations and under their names; every line is drawn over the 36
    volumes 0, 100, ..., 3500, and its point at a volume is the amount
    to pay of a simulation of that volume with the varied rate on the
    tables the caller handed in.  The sweep leaves the rows of the
    tables as they are. *)
Theorem X17_volume_sweep (set_rate : Rates -> Q -> Rates)
    (vs : list (Label * Q)) (rates : Rates) (pt : PricingTables) (m : Q)
    (Hnr : no_reply pt <> []) :
  lead_volumes = map (fun k => (100 * Z.of_nat k)%Z) (seq 0 36) /\
  Py.returns (volume_sweep set_rate vs rates pt m) (fun '(traces, pt') =>
    same_tables pt pt' /\
    Forall2
      (fun s tr =>
         trace_name tr = fst s /\ trace_x tr = lead_volumes /\
         Forall2
           (fun v c =>
              Py.returns
                (run_simulation (inject_Z v) (set_rate rates (snd s)) pt m)
                (fun '(r, _) => c = total_cost r))
           lead_volumes (trace_y tr))
      vs traces).
Proof.
  split; [reflexivity |].
  destruct (no_reply_first _ Hnr) as (p & rest & Hp).
  destruct (volume_traces m p rest pt Hp set_rate rates vs [] pt
              (same_tables_refl pt)) as (pt2 & Hsame & Hrun).
  eexists. split; [exact Hrun |]. cbn [app]. cbv beta iota.
  split; [exact Hsame |].
  apply Forall2_map_self. intros s _. cbn [trace_name trace_x trace_y].
  split; [reflexivity |]. split; [reflexivity |].
  apply Forall2_map_self. intros v _.
  eexists. split; [apply (run_simulation_eq _ _ _ _ p rest Hp) |].
  reflexivity.
Qed.

Lemma X17_volume_sweep_witness :
  Py.returns
    (volume_sweep set_response (response_rate_variations (15 # 100))
       Defaults.rates Defaults.pricing_tables 0)
    (fun '(traces, pt') => same_tables Defaults.pricing_tables pt').
Proof.
  destruct (X17_volume_sweep set_response
              (response_rate_variations (15 # 100)) Defaults.rates
              Defaults.pricing_tables 0)
    as (_ & [[traces pt'] [Hrun (Hsame & _)]]); [discriminate |].
  exists (traces, pt'). split; [exact Hrun | exact Hsame].
Defined.

(** X18.  The line named Target is the cost curve of the configured
    rates: when the varied rate of a chart is set from the target rate
    that [rates] already holds, one line of the chart carries the
    prefix Target and its point at every plotted volume is the amount
    to pay of [run_simulation] with [rates] themselves.  The marker of
    the current scenario therefore lies on it whenever the volume is one
    of the plotted ones. *)
Theorem X18_target_line (set_rate : Rates -> Q -> Rates) (step target : Q)
    (minus2 minus1 plus1 plus2 : String.string)
    (rates : Rates) (pt : PricingTables) (m : Q)
    (Hnr : no_reply pt <> [])
    (Hset : set_rate rates target = rates) :
  Py.returns
    (volume_sweep set_rate
       (rate_variations step minus2 minus1 plus1 plus2 target) rates pt m)
    (fun '(traces, _) =>
       exists tr,
         In tr traces /\
         trace_name tr = mkLabel "Target"%string (target * 100) /\
         Forall2
           (fun v c =>
              Py.returns (run_simulation (inject_Z v) rates pt m)
                (fun '(r, _) => c = total_cost r))
           lead_volumes (trace_y tr)).
Proof.
  destruct (no_reply_first _ Hnr) as (p & rest & Hp).
  destruct (volume_traces m p rest pt Hp set_rate rates
              (rate_variations step minus2 minus1 plus1 plus2 target)
              [] pt (same_tables_refl pt)) as (pt2 & _ & Hrun).
  eexists. split; [exact Hrun |]. cbn [app]. cbv beta iota.
  eexists. split; [| split].
  - apply in_map_iff.
    exists (mkLabel "Target"%string (target * 100), target).
    split; [reflexivity |].
    unfold rate_variations. apply in_or_app. right.
    apply in_or_app. right. now left.
  - reflexivity.
  - cbn [trace_y snd]. rewrite Hset.
    apply Forall2_map_self. intros v _.
    eexists. split; [apply (run_simulation_eq _ _ _ _ p rest Hp) |].
    reflexivity.
Qed.

Lemma X18_target_line_witness :
  Py.returns
    (volume_sweep set_booking (booking_rate_variations (33 # 100))
       Defaults.rates Defaults.pricing_tables 0)
    (fun '(traces, _) =>
       exists tr,
         In tr traces /\
         trace_name tr = mkLabel "Target"%string ((33 # 100) * 100) /\
         Forall2
           (fun v c =>
              Py.returns
                (run_simulation (inject_Z v) Defaults.rates
                   Defaults.pricing_tables 0)
                (fun '(r, _) => c = total_cost r))
           lead_volumes (trace_y tr)).
Proof.
  apply (X18_target_line set_booking (15 # 100) (33 # 100)
           "-30pp"%string "-15pp"%string "+15pp"%string "+30pp"%string
           Defaults.rates Defaults.pricing_tables 0).
  - discriminate.
  - reflexivity.
Defined.

(** X19.  Every line of a volume chart starts at the minimum billing:
    with a non-negative minimum billing the first point of every line,
    the one at volume 0, is the minimum billing. *)
Theorem X19_lines_start_at_floor (set_rate : Rates -> Q -> Rates)
    (vs : list (Label * Q)) (rates : Rates) (pt : PricingTables) (m : Q)
    (Hnr : no_reply pt <> []) (Hm : 0 <= m) :
  Py.returns (volume_sweep set_rate vs rates pt m) (fun '(traces, _) =>
    Forall (fun tr =>
              exists c,
                nth_error (trace_x tr) 0 = Some 0%Z /\
                nth_error (trace_y tr) 0 = Some c /\ c == m)
           traces).
Proof.
  destruct (no_reply_first _ Hnr) as (p & rest & Hp).
  destruct (volume_traces m p rest pt Hp set_rate rates vs [] pt
              (same_tables_refl pt)) as (pt2 & _ & Hrun).
  eexists. split; [exact Hrun |]. cbn [app]. cbv beta iota.
  apply Forall_forall. intros tr Hin.
  apply in_map_iff in Hin as (s & <- & _). cbn [trace_x trace_y].
  eexists. split; [reflexivity |]. split; [reflexivity |].
  now apply simulate_zero_volume.
Qed.

Lemma X19_lines_start_at_floor_witness :
  Py.returns
    (volume_sweep set_qualification
       (qualification_rate_variations (25 # 100))
       Defaults.rates Defaults.pricing_tables 1500)
    (fun '(traces, _) =>
       Forall (fun tr =>
                 exists c,
                   nth_error (trace_x tr) 0 = Some 0%Z /\
                   nth_error (trace_y tr) 0 = Some c /\ c == 1500)
              traces).
Proof.
  apply (X19_lines_start_at_floor set_qualification
           (qualification_rate_variations (25 # 100))
           Defaults.rates Defaults.pricing_tables 1500).
  - discriminate.
  - discriminate.
Defined.

End VolumeCharts.

(** ** The edges of the heat map and the insights *)

Module Overlay.
Import Pandas Engine PyFacts EngineFacts Derived SimulationFacts Charges.
Import ChargeFacts Sweep SweepFacts Dashboard.

Lemma cell_map_inv (f : Q -> Q -> Q) (qs bs : list Q) (i j : nat) :
  (i < length qs)%nat -> (j < length bs)%nat ->
  exists q b,
    nth_error qs i = Some q /\ nth_error bs j = Some b /\
    cell (map (fun q => map (fun b => f q b) bs) qs) i j = Some (f q b).
Proof.
  intros Hi Hj.
  destruct (nth_error qs i) as [q |] eqn:Eq;
    [| apply nth_error_None in Eq; lia].
  destruct (nth_error bs j) as [b |] eqn:Eb;
    [| apply nth_error_None in Eb; lia].
  exists q, b. split; [reflexivity |]. split; [reflexivity |].
  now apply cell_map.
Qed.

Lemma first_of_axis (axis : list Q) (d x : Q) (k : nat) :
  nth_error (d :: axis) k = Some x -> k = 0%nat -> x = d.
Proof. intros H ->. simpl in H. congruence. Qed.

(** Nothing is booked when one of the two rates is zero. *)
Lemma simulate_nothing_booked (tl : Q) (rates : Rates) (p : Q)
    (pt : PricingTables) (m q b : Q) :
  q == 0 \/ b == 0 ->
  num_booked (simulate tl (set_booking (set_qualification rates q) b) p pt m)
    == 0 /\
  cpa_entry
    (cpa (simulate tl (set_booking (set_qualification rates q) b) p pt m))
    = 0.
Proof.
  intro Hz. unfold simulate. simpl.
  assert (Hb : tl * response rates * q * b == 0)
    by (destruct Hz as [H | H]; rewrite H; ring).
  split; [exact Hb |].
  assert (E : Py.Qltb 0 (tl * response rates * q * b) = false)
    by (apply Qltb_ge; lra).
  rewrite E. reflexivity.
Qed.

(** X21.  The edges of the heat map.  In the first row (qualification
    rate 0) and in the first column (booking rate 0) every cell of the
    meetings matrix and of the cost-per-acquisition matrix is 0, and
    every cell of the cost matrix, on the edge or not, is at least the
    minimum billing. *)
Theorem X21_heatmap_edges (tl : Q) (rates : Rates) (pt : PricingTables)
    (m : Q) (Hnr : no_reply pt <> []) :
  Py.returns (heatmap tl rates pt m)
    (fun '(cost_matrix, cpa_matrix, meetings_matrix, _) =>
       (forall i j, (i < 8)%nat -> (j < 11)%nat ->
          (i = 0 \/ j = 0)%nat ->
          exists meetings,
            cell meetings_matrix i j = Some meetings /\ meetings == 0 /\
            cell cpa_matrix i j = Some 0) /\
       Forall (Forall (fun c => m <= c)) cost_matrix).
Proof.
  destruct (no_reply_first _ Hnr) as (p & rest & Hp).
  destruct (heatmap_rows tl m p rest rates pt Hp qual_rates_heatmap
              [] [] [] pt (same_tables_refl pt)) as (pt2 & _ & Hrun).
  eexists. split; [exact Hrun |]. cbn [app]. cbv beta iota. split.
  - intros i j Hi Hj Hedge.
    destruct (cell_map_inv
                (fun q b => num_booked
                   (simulate tl (set_booking (set_qualification rates q) b)
                      p pt m))
                qual_rates_heatmap booking_rates_heatmap i j Hi Hj)
      as (q & b & Hq & Hb & Hcell).
    assert (Hz : q == 0 \/ b == 0).
    { destruct Hedge as [E | E].
      - left. rewrite (first_of_axis _ _ _ _ Hq E). reflexivity.
      - right. rewrite (first_of_axis _ _ _ _ Hb E). reflexivity. }
    destruct (simulate_nothing_booked tl rates p pt m q b Hz) as (H1 & H2).
    eexists. split; [exact Hcell |]. split; [exact H1 |].
    rewrite <- H2.
    apply (cell_map
             (fun q b => cpa_entry (cpa
                (simulate tl (set_booking (set_qualification rates q) b)
                   p pt m))) _ _ _ _ _ _ Hq Hb).
  - apply Forall_forall. intros row Hrow.
    apply in_map_iff in Hrow as (q & <- & _).
    apply Forall_forall. intros c Hc.
    apply in_map_iff in Hc as (b & <- & _).
    unfold simulate. simpl. apply max_ge_r.
Qed.

Lemma X21_heatmap_edges_witness :
  Py.returns (heatmap 2500 Defaults.rates Defaults.pricing_tables 1500)
    (fun '(cost_matrix, _, _, _) =>
       Forall (Forall (fun c => 1500 <= c)) cost_matrix).
Proof.
  destruct (X21_heatmap_edges 2500 Defaults.rates Defaults.pricing_tables
              1500)
    as [[[[cm pm] mm] pt'] [Hrun (_ & Hfloor)]]; [discriminate |].
  exists (cm, pm, mm, pt'). split; [exact Hrun | exact Hfloor].
Defined.

End Overlay.

Module Insights.
Import Pandas Engine PyFacts EngineFacts Derived SimulationFacts Charges.
Import ChargeFacts Sweep SweepFacts Dashboard.

Lemma fold_min_spec (xs : list Q) :
  forall x,
    In (fold_left (fun best y => Py.min best y) xs x) (x :: xs) /\
    Forall (fun c => fold_left (fun best y => Py.min best y) xs x <= c)
           (x :: xs).
Proof.
  induction xs as [| y xs IH]; intro x; simpl.
  - split; [now left | constructor; [apply Qle_refl | constructor]].
  - destruct (IH (Py.min x y)) as (Hin & Hall).
    set (r := fold_left (fun best y0 => Py.min best y0) xs (Py.min x y)) in *.
    inversion Hall as [| c l Hr Hxs]; subst.
    assert (Hx : Py.min x y <= x /\ Py.min x y <= y)
      by (unfold Py.min; case_Qltb; lra).
    split.
    + destruct Hin as [Hin | Hin]; [| now right; right].
      unfold Py.min in Hin. destruct (Py.Qltb y x); rewrite <- Hin; auto.
    + constructor; [lra |]. constructor; [lra | exact Hxs].
Qed.

Lemma fold_max_spec (xs : list Q) :
  forall x,
    In (fold_left (fun best y => Py.max best y) xs x) (x :: xs) /\
    Forall (fun c => c <= fold_left (fun best y => Py.max best y) xs x)
           (x :: xs).
Proof.
  induction xs as [| y xs IH]; intro x; simpl.
  - split; [now left | constructor; [apply Qle_refl | constructor]].
  - destruct (IH (Py.max x y)) as (Hin & Hall).
    set (r := fold_left (fun best y0 => Py.max best y0) xs (Py.max x y)) in *.
    inversion Hall as [| c l Hr Hxs]; subst.
    assert (Hx : x <= Py.max x y /\ y <= Py.max x y)
      by (unfold Py.max; case_Qltb; lra).
    split.
    + destruct Hin as [Hin | Hin]; [| now right; right].
      unfold Py.max in Hin. destruct (Py.Qltb x y); rewrite <- Hin; auto.
    + constructor; [lra |]. constructor; [lra | exact Hxs].
Qed.

Lemma min_max_list (l : list Q) :
  l <> [] ->
  exists lo hi,
    min_list l = Some lo /\ max_list l = Some hi /\
    In lo l /\ In hi l /\ Forall (fun c => lo <= c /\ c <= hi) l.
Proof.
  destruct l as [| x xs]; [congruence |]. intros _.
  destruct (fold_min_spec xs x) as (Hlo & Hmin).
  destruct (fold_max_spec xs x) as (Hhi & Hmax).
  do 2 eexists. split; [reflexivity |]. split; [reflexivity |].
  split; [exact Hlo |]. split; [exact Hhi |].
  rewrite Forall_forall in *. intros c Hc. split; auto.
Qed.

(** X22.  The least and the greatest cost of the heat map exist: the
    flattened cost matrix is never empty, so [min] and [max] raise
    nothing; both are cells of the matrix, every cell lies between
    them, and the least one is at least the minimum billing. *)
Theorem X22_cost_range (tl : Q) (rates : Rates) (pt : PricingTables) (m : Q)
    (Hnr : no_reply pt <> []) :
  Py.returns (heatmap tl rates pt m) (fun '(cost_matrix, _, _, _) =>
    exists lo hi,
      min_list (flat cost_matrix) = Some lo /\
      max_list (flat cost_matrix) = Some hi /\
      In lo (flat cost_matrix) /\ In hi (flat cost_matrix) /\
      Forall (fun c => lo <= c /\ c <= hi) (flat cost_matrix) /\
      m <= lo).
Proof.
  destruct (no_reply_first _ Hnr) as (p & rest & Hp).
  destruct (heatmap_rows tl m p rest rates pt Hp qual_rates_heatmap
              [] [] [] pt (same_tables_refl pt)) as (pt2 & _ & Hrun).
  eexists. split; [exact Hrun |]. cbn [app]. cbv beta iota.
  set (f := fun q b : Q =>
              total_cost
                (simulate tl (set_booking (set_qualification rates q) b)
                   p pt m)).
  set (cm := map (fun q => map (fun b => f q b) booking_rates_heatmap)
                 qual_rates_heatmap).
  assert (Hne : flat cm <> []).
  { assert (Hin : In (f (0 # 100) (0 # 100)) (flat cm)).
    { apply in_concat. exists (map (fun b => f (0 # 100) b)
                                   booking_rates_heatmap).
      split.
      - apply (in_map (fun q => map (fun b => f q b) booking_rates_heatmap)
                 qual_rates_heatmap (0 # 100)). now left.
      - apply (in_map (fun b => f (0 # 100) b) booking_rates_heatmap
                 (0 # 100)). now left. }
    intro E. rewrite E in Hin. exact Hin. }
  destruct (min_max_list _ Hne) as (lo & hi & H1 & H2 & H3 & H4 & H5).
  exists lo, hi. repeat (split; [assumption |]).
  apply in_concat in H3 as (row & Hrow & Hlo).
  apply in_map_iff in Hrow as (q & <- & _).
  apply in_map_iff in Hlo as (b & <- & _).
  unfold f, simulate. simpl. apply max_ge_r.
Qed.

Lemma X22_cost_range_witness :
  Py.returns (heatmap 2500 Defaults.rates Defaults.pricing_tables 1500)
    (fun '(cost_matrix, _, _, _) =>
       exists lo, min_list (flat cost_matrix) = Some lo /\ 1500 <= lo).
Proof.
  destruct (X22_cost_range 2500 Defaults.rates Defaults.pricing_tables 1500)
    as [[[[cm pm] mm] pt'] [Hrun (lo & hi & H1 & _ & _ & _ & _ & H6)]];
    [discriminate |].
  exists (cm, pm, mm, pt'). split; [exact Hrun |].
  exists lo. split; [exact H1 | exact H6].
Defined.

Lemma run_simulation_raises (tl : Q) (rates : Rates) (pt : PricingTables)
    (m : Q) :
  no_reply pt = [] -> run_simulation tl rates pt m = Py.raise Py.IndexError.
Proof. intro H. unfold run_simulation. now rewrite H. Qed.

(** X23.  A missing flat price stops every sweep.  When the flat-price
    frame has no row, the heat map raises the [IndexError] of its first
    simulation, and so does a volume chart of at least one variation;
    nothing is returned and no exception is swallowed.  A volume chart
    without variations runs no simulation and returns no line. *)
Theorem X23_sweeps_raise (tl : Q) (rates : Rates) (pt : PricingTables)
    (m : Q) (set_rate : Rates -> Q -> Rates) (vs : list (Label * Q))
    (Hnr : no_reply pt = []) :
  heatmap tl rates pt m = Py.raise Py.IndexError /\
  (vs <> [] -> volume_sweep set_rate vs rates pt m = Py.raise Py.IndexError) /\
  volume_sweep set_rate [] rates pt m = Py.ret ([], pt).
Proof.
  split; [| split].
  - unfold heatmap.
    change qual_rates_heatmap
      with ((0 # 100) :: List.tl qual_rates_heatmap).
    cbn [Py.for_each]. unfold heatmap_row at 1.
    change booking_rates_heatmap
      with ((0 # 100) :: List.tl booking_rates_heatmap) at 1.
    cbn [Py.for_each]. unfold heatmap_cell at 1.
    now rewrite run_simulation_raises.
  - intro Hvs. destruct vs as [| [label rate] vs]; [congruence |].
    unfold volume_sweep. cbn [Py.for_each]. unfold volume_series at 1.
    change lead_volumes with (0%Z :: List.tl lead_volumes) at 1.
    cbn [Py.for_each]. unfold volume_point at 1.
    now rewrite run_simulation_raises.
  - reflexivity.
Qed.

Lemma X23_sweeps_raise_witness :
  heatmap 2500 Defaults.rates
    (mkPricingTables [] Defaults.df_leads Defaults.df_qualified
       Defaults.df_booked) 0
  = Py.raise Py.IndexError.
Proof.
  apply (X23_sweeps_raise 2500 Defaults.rates
           (mkPricingTables [] Defaults.df_leads Defaults.df_qualified
              Defaults.df_booked) 0 set_response []).
  reflexivity.
Defined.

End Insights.
